(** * jest-scaffold: the test-scaffolding pipeline of [src/scaffold-tests.js]

    A shallow embedding of the script that reads one React component file,
    classifies its declared props and emits a [*.test_cases.js] fixture
    module and a [*.test.js] snapshot-test module.

    Conventions of the embedding:
    - JavaScript strings are [string]s of 8-bit code units; the line
      terminators among them are LF and CR.
    - The few JavaScript values the script stores in [defaultValue] and
      [required] are the constructors of [jsval]; [truthy] and [to_string]
      are JavaScript's ToBoolean and the conversion done by a template
      literal.
    - An object used as a dictionary is a [gmap]; an object that is
      enumerated ([for ... in]) is the association list of its entries in
      enumeration order.
    - The one [data] object that every stage mutates and passes on is a
      record threaded through the stages; a promise is a settle-once cell.
    - [react-docgen] and [path.parse] are libraries, not code of this
      repository: they are parameters of the pipeline. *)

From Stdlib Require Import ZArith Ascii DecimalString Lia.
From stdpp Require Import gmap strings list fin_maps.

(** String concatenation unfolds on a literal prefix. *)
#[local] Arguments String.append !s1 s2 : simpl nomatch.

(** ** JavaScript values and strings *)

Module Js.

Inductive jsval :=
| JUndefined
| JNull
| JBool (b : bool)
| JNum (n : Z)
| JStr (s : string).

Definition is_empty (s : string) : bool :=
  match s with EmptyString => true | String _ _ => false end.

(** ToBoolean *)
Definition truthy (v : jsval) : bool :=
  match v with
  | JUndefined | JNull => false
  | JBool b => b
  | JNum n => negb (n =? 0)%Z
  | JStr s => negb (is_empty s)
  end.

(** [a || b] *)
Definition or (a b : jsval) : jsval := if truthy a then a else b.

(** The text a template literal [`${v}`] inserts. *)
Definition to_string (v : jsval) : string :=
  match v with
  | JUndefined => "undefined"
  | JNull => "null"
  | JBool true => "true"
  | JBool false => "false"
  | JNum n => NilZero.string_of_int (Z.to_int n)
  | JStr s => s
  end.

(** [Array.prototype.join] on an array of strings. *)
Fixpoint join (sep : string) (l : list string) : string :=
  match l with
  | [] => ""
  | [x] => x
  | x :: rest => x +:+ sep +:+ join sep rest
  end.

Definition is_lower (c : ascii) : bool :=
  (97 <=? nat_of_ascii c)%nat && (nat_of_ascii c <=? 122)%nat.

(** [toUpperCase] on one code unit; only ever applied to [a-z] here. *)
Definition to_upper (c : ascii) : ascii :=
  if is_lower c then ascii_of_nat (nat_of_ascii c - 32) else c.

Definition is_line_terminator (c : ascii) : bool :=
  (nat_of_ascii c =? 10)%nat || (nat_of_ascii c =? 13)%nat.

End Js.

(** ** The regular expressions of the script

    Four of the five patterns are plain sequences of one-character atoms:
    [PropTypes.], [.isRequired], [^[a-z]] and, with the [g] flag, [_([a-z])].
    The fifth, a starred class of non-slash characters with the [g] flag, is
    modelled by [replace_segments] below. *)

Module Regex.

Inductive atom :=
| Chr (c : ascii)      (* a literal character *)
| Dot                  (* [.]: anything but a line terminator *)
| Lower.               (* [[a-z]] *)

Definition atom_matches (a : atom) (c : ascii) : bool :=
  match a with
  | Chr c' => if decide (c = c') then true else false
  | Dot => negb (Js.is_line_terminator c)
  | Lower => Js.is_lower c
  end.

Fixpoint literal (s : string) : list atom :=
  match s with
  | EmptyString => []
  | String c s' => Chr c :: literal s'
  end.

(** Match the pattern at the start of [s]: the matched text and the rest. *)
Fixpoint match_here (re : list atom) (s : string) : option (string * string) :=
  match re with
  | [] => Some ("", s)
  | a :: re' =>
      match s with
      | EmptyString => None
      | String c s' =>
          if atom_matches a c then
            match match_here re' s' with
            | Some (m, rest) => Some (String c m, rest)
            | None => None
            end
          else None
      end
  end.

(** Leftmost match anywhere in [s]: text before, matched text, text after. *)
Fixpoint search (re : list atom) (s : string) : option (string * string * string) :=
  match match_here re s with
  | Some (m, rest) => Some ("", m, rest)
  | None =>
      match s with
      | EmptyString => None
      | String c s' =>
          match search re s' with
          | Some (pre, m, rest) => Some (String c pre, m, rest)
          | None => None
          end
      end
  end.

(** [re.test(s)] *)
Definition test (re : list atom) (s : string) : bool :=
  match search re s with Some _ => true | None => false end.

(** [s.replace(re, f)] for a pattern without the [g] flag. *)
Definition replace_first (re : list atom) (f : string -> string) (s : string) : string :=
  match search re s with
  | Some (pre, m, rest) => pre +:+ f m +:+ rest
  | None => s
  end.

(** [s.replace(/^re/, f)] *)
Definition replace_anchored (re : list atom) (f : string -> string) (s : string) : string :=
  match match_here re s with
  | Some (m, rest) => f m +:+ rest
  | None => s
  end.

(** [s.replace(re, f)] with the [g] flag, for a pattern that never matches
    the empty string: after a match the scan resumes behind it. *)
Fixpoint replace_all_fuel (fuel : nat) (re : list atom) (f : string -> string)
    (s : string) : string :=
  match fuel with
  | 0%nat => s
  | S fuel' =>
      match match_here re s with
      | Some (m, rest) => f m +:+ replace_all_fuel fuel' re f rest
      | None =>
          match s with
          | EmptyString => ""
          | String c s' => String c (replace_all_fuel fuel' re f s')
          end
      end
  end.

Definition replace_all (re : list atom) (f : string -> string) (s : string) : string :=
  replace_all_fuel (S (String.length s)) re f s.

Definition not_slash (c : ascii) : bool :=
  if decide (c = "/"%char) then false else true.

(** The longest prefix of [s] whose characters satisfy [p], and the rest. *)
Fixpoint run_of (p : ascii -> bool) (s : string) : string * string :=
  match s with
  | EmptyString => ("", "")
  | String c s' =>
      if p c then let '(m, rest) := run_of p s' in (String c m, rest)
      else ("", s)
  end.

(** [s.replace(re, () => repl)] for the global pattern "zero or more
    characters other than a slash".  At [lastIndex] the pattern always
    matches: the longest run of characters other than [/], which may be
    empty.  After an empty match [lastIndex] moves one character on, and the
    skipped character is kept; the loop ends once [lastIndex] has passed the
    end of the string. *)
Fixpoint replace_segments_fuel (fuel : nat) (repl : string) (s : string) : string :=
  match fuel with
  | 0%nat => s
  | S fuel' =>
      let '(m, rest) := run_of not_slash s in
      if Js.is_empty m then
        match rest with
        | EmptyString => repl
        | String c rest' => repl +:+ String c (replace_segments_fuel fuel' repl rest')
        end
      else repl +:+ replace_segments_fuel fuel' repl rest
  end.

Definition replace_segments (repl : string) (s : string) : string :=
  replace_segments_fuel (S (S (String.length s))) repl s.

End Regex.

(** ** What [react-docgen] hands over *)

(** A Flow type: its [name] and, for a union, its [elements] (absent on other
    types), of which only the [name] is read. *)
Record flowElement := { el_name : string }.

Record flowType := {
  flow_name : string;
  flow_elements : option (list flowElement)
}.

(** [value.type]: only its [raw] text is read. *)
Record propType := { raw : option string }.

(** One entry of [component.props].  [react-docgen] sets [required] to a
    boolean on every prop it documents. *)
Record propDescriptor := {
  prop_flowType : option flowType;
  prop_type : option propType;
  prop_required : bool
}.

(** The documentation object; [props] is absent when nothing was declared.
    The association list is in [for ... in] order. *)
Record componentDoc := {
  props : option (list (string * propDescriptor))
}.

(** ** Failures *)

Inductive error :=
| Message (text : string)            (* a string passed to [reject] *)
| TypeError (text : string)          (* a property read on [undefined] *)
| FsError (code : string) (path : string).

(** ** The Property Classifier: [getPropDefaults] *)

Record classified := {
  name : string;
  required : Js.jsval;
  defaultValue : Js.jsval;
  message : string
}.

(** The [propTypes] object literal. *)
Definition propTypes : gmap string Js.jsval :=
  list_to_map [
    ("any", Js.JStr "''");
    ("boolean", Js.JBool true);
    ("bool", Js.JBool true);
    ("Function", Js.JStr "safeSpy()");
    ("func", Js.JStr "safeSpy()");
    ("immutable.list", Js.JStr "Immutable.List()");
    ("immutable.map", Js.JStr "Immutable.Map()");
    ("number", Js.JNum 0);
    ("string", Js.JStr "''");
    ("union", Js.JStr "''");
    ("unknown", Js.JStr "Immutable.fromJS()")
  ].

(** [propTypes[key]]: a missing key reads as [undefined].  (Names inherited
    from [Object.prototype] are not type names and are left out.) *)
Definition propTypes_get (key : string) : Js.jsval :=
  default Js.JUndefined (propTypes !! key).

(** [propTypes[defaultValue] || null] *)
Definition lookup_default (key : string) : Js.jsval :=
  Js.or (propTypes_get key) Js.JNull.

Definition re_PropTypes : list Regex.atom := Regex.literal "PropTypes" ++ [Regex.Dot].
Definition re_isRequired : list Regex.atom := Regex.Dot :: Regex.literal "isRequired".

Definition strip_raw (r : string) : string :=
  Regex.replace_first re_isRequired (fun _ => "")
    (Regex.replace_first re_PropTypes (fun _ => "") r).

(** The effective type name, the [required] value and the message chosen by
    the three branches of the loop body, before the table lookup. *)
Definition deduce (value : propDescriptor) : error + (string * Js.jsval * string) :=
  match prop_flowType value with
  | Some ft =>
      if decide (flow_name ft = "union") then
        match flow_elements ft with
        | None => inl (TypeError "Cannot read property '0' of undefined")
        | Some [] => inl (TypeError "Cannot read property 'name' of undefined")
        | Some (first :: _) => inr (el_name first, Js.JBool (prop_required value), "")
        end
      else inr (flow_name ft, Js.JBool (prop_required value), "")
  | None =>
      match prop_type value with
      | None => inl (TypeError "Cannot read property 'raw' of undefined")
      | Some ty =>
          match raw ty with
          | Some r =>
              if Js.is_empty r then inr ("any", Js.JUndefined, "Could not deduce prop type")
              else inr (strip_raw r, Js.JBool (Regex.test re_isRequired r), "")
          | None => inr ("any", Js.JUndefined, "Could not deduce prop type")
          end
      end
  end.

(** One iteration of the loop: the object pushed onto [classifiedProps]. *)
Definition classify (prop : string) (value : propDescriptor) : error + classified :=
  match deduce value with
  | inl e => inl e
  | inr (type_name, req, msg) =>
      inr {| name := prop; required := req;
             defaultValue := lookup_default type_name; message := msg |}
  end.

(** The whole loop over [component.props]; a thrown error ends it. *)
Fixpoint classify_all (entries : list (string * propDescriptor)) : error + list classified :=
  match entries with
  | [] => inr []
  | (prop, value) :: rest =>
      match classify prop value with
      | inl e => inl e
      | inr c =>
          match classify_all rest with
          | inl e => inl e
          | inr cs => inr (c :: cs)
          end
      end
  end.

(** ** The [data] object *)

Record data := mkData {
  componentName : string;
  componentFilePath : string;
  componentFilePathName : string;
  testDirectory : string;
  testCasesFile : string;
  testFile : string;
  component : option componentDoc;      (* [undefined] until it is assigned *)
  wrapped : bool;                       (* [undefined] until set to [true] *)
  classifiedProps : list classified;
  requiredProps : list classified;
  optionalProps : list classified;
  testCasesContent : list string;
  testContent : list string
}.

Definition set_component (c : option componentDoc) (d : data) : data :=
  mkData (componentName d) (componentFilePath d) (componentFilePathName d)
    (testDirectory d) (testCasesFile d) (testFile d) c (wrapped d)
    (classifiedProps d) (requiredProps d) (optionalProps d)
    (testCasesContent d) (testContent d).

Definition set_wrapped (b : bool) (d : data) : data :=
  mkData (componentName d) (componentFilePath d) (componentFilePathName d)
    (testDirectory d) (testCasesFile d) (testFile d) (component d) b
    (classifiedProps d) (requiredProps d) (optionalProps d)
    (testCasesContent d) (testContent d).

Definition set_classifiedProps (l : list classified) (d : data) : data :=
  mkData (componentName d) (componentFilePath d) (componentFilePathName d)
    (testDirectory d) (testCasesFile d) (testFile d) (component d) (wrapped d)
    l (requiredProps d) (optionalProps d)
    (testCasesContent d) (testContent d).

Definition set_requiredProps (l : list classified) (d : data) : data :=
  mkData (componentName d) (componentFilePath d) (componentFilePathName d)
    (testDirectory d) (testCasesFile d) (testFile d) (component d) (wrapped d)
    (classifiedProps d) l (optionalProps d)
    (testCasesContent d) (testContent d).

Definition set_optionalProps (l : list classified) (d : data) : data :=
  mkData (componentName d) (componentFilePath d) (componentFilePathName d)
    (testDirectory d) (testCasesFile d) (testFile d) (component d) (wrapped d)
    (classifiedProps d) (requiredProps d) l
    (testCasesContent d) (testContent d).

Definition set_testCasesContent (l : list string) (d : data) : data :=
  mkData (componentName d) (componentFilePath d) (componentFilePathName d)
    (testDirectory d) (testCasesFile d) (testFile d) (component d) (wrapped d)
    (classifiedProps d) (requiredProps d) (optionalProps d)
    l (testContent d).

Definition set_testContent (l : list string) (d : data) : data :=
  mkData (componentName d) (componentFilePath d) (componentFilePathName d)
    (testDirectory d) (testCasesFile d) (testFile d) (component d) (wrapped d)
    (classifiedProps d) (requiredProps d) (optionalProps d)
    (testCasesContent d) l.

(** [data.testCasesContent.push(...)] and [data.testContent.push(...)] *)
Definition push_cases (lines : list string) (d : data) : data :=
  set_testCasesContent (testCasesContent d ++ lines) d.

Definition push_test (lines : list string) (d : data) : data :=
  set_testContent (testContent d ++ lines) d.

(** [getPropDefaults]: reading [data.component.props] throws while
    [data.component] is [undefined]; enumerating an absent [props] runs the
    loop zero times. *)
Definition getPropDefaults (d : data) : error + data :=
  match component d with
  | None => inl (TypeError "Cannot read property 'props' of undefined")
  | Some doc =>
      match classify_all (default [] (props doc)) with
      | inl e => inl e
      | inr cs => inr (set_classifiedProps cs d)
      end
  end.

(** ** The Fixture Emitter: [generateTestCasesContent] *)

Definition is_required (p : classified) : bool := Js.truthy (required p).

(** The line [requiredPropsFormatted] pushes for the prop at index [i]. *)
Definition required_line (excludeLastComma : bool) (len i : nat) (prop : classified) : string :=
  let punctuation := if excludeLastComma && (i =? len - 1)%nat then "" else "," in
  let comment := if Js.truthy (Js.JStr (message prop)) then " // message" else "" in
  "    " +:+ name prop +:+ ": " +:+ Js.to_string (defaultValue prop)
    +:+ punctuation +:+ comment.

Definition requiredPropsFormatted (excludeLastComma : bool) (d : data) : data :=
  push_cases
    (imap (required_line excludeLastComma (length (requiredProps d))) (requiredProps d)) d.

Definition basePropsFormatted (d : data) : error + data :=
  match component d with
  | None => inl (TypeError "Cannot read property 'props' of undefined")
  | Some doc =>
      match props doc with
      | None => inr (push_cases ["  props: {} // could not find prop type declarations"] d)
      | Some _ =>
          if (length (requiredProps d) =? 0)%nat then
            inr (push_cases ["  props: {} // could not find required props"] d)
          else
            inr (push_cases ["  }"]
                   (requiredPropsFormatted true
                      (push_cases ["  props: {"] d)))
      end
  end.

Definition wrapped_suffix (d : data) : string :=
  if wrapped d then ".WrappedComponent" else "".

Definition safeSpyPrefix (testDirectory : string) : string :=
  Regex.replace_segments "." testDirectory.

(** The body of the [optionalProps.forEach] callback. *)
Definition optional_block (d : data) (optionalProp : classified) : data :=
  let comment :=
    if Js.truthy (Js.JStr (message optionalProp))
    then " // " +:+ message optionalProp else "" in
  let d := push_cases ["export const " +:+ name optionalProp +:+ " = {"] d in
  let d := push_cases ["  description: '" +:+ name optionalProp +:+ " optional prop',"] d in
  let d := push_cases ["  component: " +:+ componentName d +:+ wrapped_suffix d +:+ ","] d in
  let d := push_cases ["  props: {"] d in
  let d := requiredPropsFormatted false d in
  let d := push_cases ["    " +:+ name optionalProp +:+ ": "
                         +:+ Js.to_string (defaultValue optionalProp) +:+ comment] d in
  let d := push_cases ["  }"] d in
  let d := push_cases ["};"] d in
  push_cases [""] d.

Definition generateTestCasesContent (d : data) : error + data :=
  let prefix := safeSpyPrefix (testDirectory d) in
  let d := set_testCasesContent [] d in
  let d := set_requiredProps (List.filter is_required (classifiedProps d)) d in
  let d := set_optionalProps
             (List.filter (fun p => negb (is_required p)) (classifiedProps d)) d in
  let d := push_cases ["import Immutable from 'immutable';"] d in
  let d := push_cases ["import safeSpy from '" +:+ prefix +:+ "/test/safe_spy';"] d in
  let d := push_cases ["import { " +:+ componentName d +:+ " } from '../"
                         +:+ componentFilePathName d +:+ "'"] d in
  let d := push_cases [""] d in
  let d := push_cases ["export const base = {"] d in
  let d := push_cases ["  description: 'base',"] d in
  let d := push_cases ["  component: " +:+ componentName d +:+ wrapped_suffix d +:+ ","] d in
  match basePropsFormatted d with
  | inl e => inl e
  | inr d =>
      let d := push_cases ["}"] d in
      let d := push_cases [""] d in
      inr (foldl optional_block d (optionalProps d))
  end.

(** ** The Test Emitter: [generateTestContent] *)

(** The body of the [testCaseNames.forEach] callback. *)
Definition test_block (len : nat) (d : data) (i : nat) (case_name : string) : data :=
  let d := push_test ["  describe(testCases." +:+ case_name +:+ ".description, () => {"] d in
  let d := push_test ["    beforeEach(() => {"] d in
  let d := push_test ["      testCase = testCases." +:+ case_name +:+ ";"] d in
  let d := push_test
    ["      wrapper = shallow(React.createElement(testCase.component, testCase.props));"] d in
  let d := push_test ["    });"] d in
  let d := push_test [""] d in
  let d := push_test ["    it('renders', () => {"] d in
  let d := push_test ["      expect(toJson(wrapper)).toMatchSnapshot();"] d in
  let d := push_test ["    });"] d in
  let d := push_test ["  });"] d in
  if (i =? len - 1)%nat then d else push_test [""] d.

(** [forEach((x, i) => ...)] over a list, threading the mutated object. *)
Fixpoint forEach_indexed {A S : Type} (f : S -> nat -> A -> S) (i : nat) (l : list A) (s : S) : S :=
  match l with
  | [] => s
  | x :: rest => forEach_indexed f (Datatypes.S i) rest (f s i x)
  end.

Definition generateTestContent (d : data) : data :=
  let d := set_testContent [] d in
  let testCaseNames := "base" :: map name (optionalProps d) in
  let d := push_test ["import React from 'react';"] d in
  let d := push_test ["import { shallow } from 'enzyme';"] d in
  let d := push_test ["import toJson from 'enzyme-to-json';"] d in
  let d := push_test ["import * as testCases from './" +:+ componentFilePathName d
                        +:+ ".test_cases';"] d in
  let d := push_test [""] d in
  let d := push_test ["describe('<" +:+ componentName d +:+ ">', () => {"] d in
  let d := push_test ["  let testCase;"] d in
  let d := push_test ["  let wrapper;"] d in
  let d := push_test [""] d in
  let d := forEach_indexed (test_block (length testCaseNames)) 0 testCaseNames d in
  let d := push_test ["});"] d in
  push_test [""] d.

(** ** Promises and the outside world *)

(** A promise is settled at most once: [resolve] and [reject] on a settled
    promise do nothing. *)
Inductive promise (A : Type) :=
| Pending
| Fulfilled (a : A)
| Rejected (e : error).
Arguments Pending {A}.
Arguments Fulfilled {A} a.
Arguments Rejected {A} e.

(** The state an executor of [new Promise((resolve, reject) => ...)] works
    on: the shared [data] object and the promise being settled.  Every
    [resolve] of the script passes the [data] object itself, so a fulfilled
    promise hands on the object as it is when the executor is done. *)
Record executor := {
  obj : data;
  cell : promise unit
}.

Definition resolve (x : executor) : executor :=
  match cell x with
  | Pending => {| obj := obj x; cell := Fulfilled tt |}
  | _ => x
  end.

Definition reject (e : error) (x : executor) : executor :=
  match cell x with
  | Pending => {| obj := obj x; cell := Rejected e |}
  | _ => x
  end.

Definition assign (f : data -> data) (x : executor) : executor :=
  {| obj := f (obj x); cell := cell x |}.

Definition settled (x : executor) : promise data :=
  match cell x with
  | Pending => Pending
  | Fulfilled _ => Fulfilled (obj x)
  | Rejected e => Rejected e
  end.

(** The file system and the console.  [mkdir_denied] holds the directories
    the system refuses to create. *)
Record world := {
  files : gmap string string;
  dirs : gset string;
  mkdir_denied : gset string;
  console : list string
}.

Definition write_file (path content : string) (w : world) : world :=
  {| files := <[path := content]> (files w); dirs := dirs w;
     mkdir_denied := mkdir_denied w; console := console w |}.

Definition make_dir (path : string) (w : world) : world :=
  {| files := files w; dirs := {[path]} ∪ dirs w;
     mkdir_denied := mkdir_denied w; console := console w |}.

Definition console_log (line : string) (w : world) : world :=
  {| files := files w; dirs := dirs w;
     mkdir_denied := mkdir_denied w; console := console w ++ [line] |}.

Definition nl : string := String (ascii_of_nat 10) "".

(** The text of an error inside a template literal. *)
Definition error_text (e : error) : string :=
  match e with
  | Message text => text
  | TypeError text => "TypeError: " +:+ text
  | FsError code path => "Error: " +:+ code +:+ ": " +:+ path
  end.

(** A stage: a function of the world that settles a promise. *)
Definition io (A : Type) : Type := world -> world * promise A.

(** [p.then(f)] *)
Definition io_then {A B : Type} (m : io A) (f : A -> io B) : io B :=
  fun w =>
    match m w with
    | (w', Fulfilled a) => f a w'
    | (w', Rejected e) => (w', Rejected e)
    | (w', Pending) => (w', Pending)
    end.

(** [p.catch(h)] *)
Definition io_catch {A : Type} (m : io A) (h : error -> io A) : io A :=
  fun w =>
    match m w with
    | (w', Rejected e) => h e w'
    | r => r
    end.

(** A stage that does not touch the world. *)
Definition pure_stage {A : Type} (p : promise A) : io A := fun w => (w, p).

Definition of_result {A : Type} (r : error + A) : promise A :=
  match r with inl e => Rejected e | inr a => Fulfilled a end.

Infix ">>=" := io_then (at level 50, left associativity).

Definition msg_no_filepath : string := "Filepath argument is required!".
Definition msg_multiple : string :=
  "Found more than one component definitions, could not automatically generate tests.".
Definition msg_failed : string :=
  "Failed to analyze component definition, could not automatically generate tests.".

(** ** The pipeline *)

Section Pipeline.

(** [path.parse(filepath)]: the [dir] and [name] fields. *)
Variable path_parse : string -> string * string.

(** [reactDocs.parse(content)]: the documentation, or [None] when it
    throws. *)
Variable reactDocs_parse : string -> option componentDoc.

(** [reactDocs.parse(content, findAllComponentDefinitions)]: one
    documentation per definition found, or [None] when it throws. *)
Variable reactDocs_parse_all : string -> option (list componentDoc).

(** [e[i]] inside a replacement callback, upper-cased. *)
Definition upper_at (i : nat) (e : string) : string :=
  match String.get i e with
  | Some c => String (Js.to_upper c) ""
  | None => ""
  end.

Definition derive_componentName (name : string) : string :=
  Regex.replace_all [Regex.Chr "_"; Regex.Lower] (upper_at 1)
    (Regex.replace_anchored [Regex.Lower] (upper_at 0) name).

Definition getFileAndComponentName (argv2 : option string) : promise data :=
  match argv2 with
  | None => Rejected (Message msg_no_filepath)
  | Some filepath =>
      if Js.is_empty filepath then Rejected (Message msg_no_filepath)
      else
        let '(dir, name) := path_parse filepath in
        let testDirectory := dir +:+ "/__tests__" in
        Fulfilled
          {| componentName := derive_componentName name;
             componentFilePath := filepath;
             componentFilePathName := name;
             testDirectory := testDirectory;
             testCasesFile := testDirectory +:+ "/" +:+ name +:+ ".test_cases.js";
             testFile := testDirectory +:+ "/" +:+ name +:+ ".test.js";
             component := None;
             wrapped := false;
             classifiedProps := [];
             requiredProps := [];
             optionalProps := [];
             testCasesContent := [];
             testContent := [] |}
  end.

(** The [then] callback of the second [parseComponent] call: the [reject]
    is not followed by a [return], so the three statements after it run as
    well. *)
Definition on_all_definitions (res : list componentDoc) (x : executor) : executor :=
  let x := if (1 <? length res)%nat then reject (Message msg_multiple) x else x in
  let x := assign (set_component (head res)) x in
  let x := assign (set_wrapped true) x in
  resolve x.

Definition getComponentInfo (d : data) : io data :=
  fun w =>
    match files w !! componentFilePath d with
    | None => (w, Rejected (FsError "ENOENT" (componentFilePath d)))
    | Some componentContent =>
        let x := {| obj := d; cell := Pending |} in
        let x :=
          match reactDocs_parse componentContent with
          | Some res => resolve (assign (set_component (Some res)) x)
          | None =>
              match reactDocs_parse_all componentContent with
              | Some res => on_all_definitions res x
              | None => reject (Message msg_failed) x
              end
          end in
        (w, settled x)
    end.

(** [createTestsDir]: [fs.mkdir] is called whether or not the directory
    exists; its callback rejects on an error and then resolves. *)
Definition createTestsDir (d : data) : io data :=
  fun w =>
    let x := {| obj := d; cell := Pending |} in
    let x := if decide (testDirectory d ∈ dirs w) then resolve x else x in
    if decide (testDirectory d ∈ dirs w) then
      (w, settled (resolve (reject (FsError "EEXIST" (testDirectory d)) x)))
    else if decide (testDirectory d ∈ mkdir_denied w) then
      (w, settled (resolve (reject (FsError "EACCES" (testDirectory d)) x)))
    else
      (make_dir (testDirectory d) w, settled (resolve x)).

Definition createTestFiles (d : data) : io data :=
  fun w =>
    let w := write_file (testCasesFile d) (Js.join nl (testCasesContent d)) w in
    let w := write_file (testFile d) (Js.join nl (testContent d)) w in
    (w, Fulfilled d).

Definition formatMessage (message : string) (w : world) : world :=
  console_log (nl +:+ message +:+ nl) w.

Definition printMessage (d : data) : io unit :=
  fun w =>
    let message :=
      [ "Successfully created the following test files for " +:+ componentName d +:+ ":";
        "  * " +:+ testCasesFile d;
        "  * " +:+ testFile d ] in
    (formatMessage (Js.join nl message) w, Fulfilled tt).

(** The chain up to and including the Writer. *)
Definition scaffold (argv2 : option string) : io data :=
  pure_stage (getFileAndComponentName argv2)
    >>= getComponentInfo
    >>= (fun d => pure_stage (of_result (getPropDefaults d)))
    >>= (fun d => pure_stage (of_result (generateTestCasesContent d)))
    >>= (fun d => pure_stage (Fulfilled (generateTestContent d)))
    >>= createTestsDir
    >>= createTestFiles.

(** The whole script. *)
Definition main (argv2 : option string) (w : world) : world :=
  fst (io_catch (scaffold argv2 >>= printMessage)
         (fun err w => (formatMessage (error_text err) w, Fulfilled tt)) w).

End Pipeline.

(** ** Reading the emitted text back

    The statements below look at the output the way a reader of the
    generated files does: paths are cut at slashes, the fixture module is
    cut into its [export const] blocks, and a block's props are the lines
    between [props: {] and the closing brace. *)

(** [s.split('/')] *)
Fixpoint split_slash (s : string) : list string :=
  match s with
  | EmptyString => [""]
  | String c s' =>
      if Regex.not_slash c then
        match split_slash s' with
        | seg :: segs => String c seg :: segs
        | [] => [String c ""]
        end
      else "" :: split_slash s'
  end.

(** The path segments of a directory: the non-empty pieces between slashes. *)
Definition path_segments (dir : string) : list string :=
  List.filter (fun seg => negb (Js.is_empty seg)) (split_slash dir).

(** The number of [..] segments of a relative prefix. *)
Definition count_dotdot (prefix : string) : nat :=
  length (List.filter (String.eqb "..") (split_slash prefix)).

(** What the replacement makes of one piece between slashes. *)
Definition segment_image (seg : string) : string :=
  if Js.is_empty seg then "." else "..".

(** The prefix in closed form: every piece between slashes is replaced, a
    non-empty one by [..] and an empty one by [.]. *)
Definition prefix_of_segments (dir : string) : string :=
  Js.join "/" (map segment_image (split_slash dir)).

Fixpoint slash_free (s : string) : bool :=
  match s with
  | EmptyString => true
  | String c s' => Regex.not_slash c && slash_free s'
  end.

(** [s.startsWith(p)] *)
Fixpoint starts_with (p s : string) : bool :=
  match p with
  | EmptyString => true
  | String a p' =>
      match s with
      | EmptyString => false
      | String b s' => if Ascii.eqb a b then starts_with p' s' else false
      end
  end.

Definition is_export (line : string) : bool := starts_with "export const " line.

(** The lines before the first [export const] line, and the blocks that each
    start at one. *)
Fixpoint scenarios_aux (lines : list string) : list string * list (list string) :=
  match lines with
  | [] => ([], [])
  | line :: rest =>
      let '(cur, blocks) := scenarios_aux rest in
      if is_export line then ([], (line :: cur) :: blocks)
      else (line :: cur, blocks)
  end.

Definition scenarios (lines : list string) : list (list string) :=
  snd (scenarios_aux lines).

Fixpoint lines_after (start : string) (lines : list string) : list string :=
  match lines with
  | [] => []
  | line :: rest => if String.eqb line start then rest else lines_after start rest
  end.

Fixpoint lines_until (stop : string) (lines : list string) : list string :=
  match lines with
  | [] => []
  | line :: rest => if String.eqb line stop then [] else line :: lines_until stop rest
  end.

(** The lines between [props: {] and the closing brace of a scenario block;
    empty for the one-line [props: {} // ...] form. *)
Definition props_block (block : list string) : list string :=
  lines_until "  }" (lines_after "  props: {" block).

(** The scenario name in a header line [export const NAME = {]. *)
Definition header_of (scenario_name : string) : string :=
  "export const " +:+ scenario_name +:+ " = {".

(** The trailing comment of a fixture line as the specification words it:
    the prop's diagnostic, when it has one. *)
Definition spec_diagnostic_comment (p : classified) : string :=
  if Js.is_empty (message p) then "" else " // " +:+ message p.

(** The base-scenario line of the required prop at index [i] of [len], as the
    specification words it: no comma on the last line. *)
Definition spec_base_line (len i : nat) (p : classified) : string :=
  "    " +:+ name p +:+ ": " +:+ Js.to_string (defaultValue p)
    +:+ (if (i =? len - 1)%nat then "" else ",") +:+ spec_diagnostic_comment p.

Fixpoint last_char (s : string) : option ascii :=
  match s with
  | EmptyString => None
  | String c EmptyString => Some c
  | String _ s' => last_char s'
  end.

(** A fixture line that sets prop [p] to its classified value. *)
Definition sets_prop (p : classified) (line : string) : bool :=
  starts_with ("    " +:+ name p +:+ ": " +:+ Js.to_string (defaultValue p)) line.

(** ** The emitted fixture module, block by block *)

Definition required_lines (excludeLastComma : bool) (reqs : list classified) : list string :=
  imap (required_line excludeLastComma (length reqs)) reqs.

Definition import_lines (prefix cn file_name : string) : list string :=
  [ "import Immutable from 'immutable';";
    "import safeSpy from '" +:+ prefix +:+ "/test/safe_spy';";
    "import { " +:+ cn +:+ " } from '../" +:+ file_name +:+ "'";
    "" ].

Definition base_props_lines (doc : componentDoc) (reqs : list classified) : list string :=
  match props doc with
  | None => ["  props: {} // could not find prop type declarations"]
  | Some _ =>
      if (length reqs =? 0)%nat then ["  props: {} // could not find required props"]
      else "  props: {" :: required_lines true reqs ++ ["  }"]
  end.

Definition base_lines (cn sfx : string) (doc : componentDoc)
    (reqs : list classified) : list string :=
  "export const base = {" :: "  description: 'base',"
    :: ("  component: " +:+ cn +:+ sfx +:+ ",")
    :: base_props_lines doc reqs ++ ["}"; ""].

Definition optional_lines (cn sfx : string) (reqs : list classified)
    (p : classified) : list string :=
  header_of (name p) :: ("  description: '" +:+ name p +:+ " optional prop',")
    :: ("  component: " +:+ cn +:+ sfx +:+ ",") :: "  props: {"
    :: required_lines false reqs
    ++ [ "    " +:+ name p +:+ ": " +:+ Js.to_string (defaultValue p)
           +:+ (if Js.is_empty (message p) then "" else " // " +:+ message p);
         "  }"; "};"; "" ].

(** The [component:] line of every scenario. *)
Definition component_line (d : data) : string :=
  "  component: " +:+ componentName d +:+ wrapped_suffix d +:+ ",".

Definition required_of (d : data) : list classified :=
  List.filter is_required (classifiedProps d).

Definition optional_of (d : data) : list classified :=
  List.filter (fun p => negb (is_required p)) (classifiedProps d).

Definition fixture_lines (d : data) (doc : componentDoc) : list string :=
  import_lines (safeSpyPrefix (testDirectory d)) (componentName d) (componentFilePathName d)
    ++ base_lines (componentName d) (wrapped_suffix d) doc (required_of d)
    ++ flat_map (optional_lines (componentName d) (wrapped_suffix d) (required_of d))
         (optional_of d).

(** Lines that do not open a scenario block. *)
Definition plain (lines : list string) : Prop :=
  Forall (fun line => is_export line = false) lines.

(** Two states of the [data] object with the same output paths. *)
Definition same_paths (d d' : data) : Prop :=
  testDirectory d' = testDirectory d /\
  testCasesFile d' = testCasesFile d /\
  testFile d' = testFile d.

(** ** Sample inputs

    The component of the specification's end-to-end example: the file
    [components/user_card.js] with a required string prop [name] and an
    optional boolean prop [active]. *)

Definition sample_doc : componentDoc :=
  {| props := Some [
       ("name", {| prop_flowType := None;
                   prop_type := Some {| raw := Some "PropTypes.string.isRequired" |};
                   prop_required := true |});
       ("active", {| prop_flowType := Some {| flow_name := "boolean"; flow_elements := None |};
                     prop_type := None;
                     prop_required := false |}) ] |}.

Definition sample_empty_doc : componentDoc := {| props := None |}.

Definition sample_path : string := "components/user_card.js".

(** [path.parse] on the sample path. *)
Definition sample_path_parse (filepath : string) : string * string :=
  ("components", "user_card").

(** A parser that finds the component directly in the text ["direct"] and
    throws on every other text. *)
Definition sample_parse (content : string) : option componentDoc :=
  if String.eqb content "direct" then Some sample_doc else None.

(** A search that finds two definitions in the text ["two"] and throws on
    every other text. *)
Definition sample_parse_all (content : string) : option (list componentDoc) :=
  if String.eqb content "two" then Some [sample_doc; sample_empty_doc] else None.

Definition sample_world (content : string) : world :=
  {| files := {[ sample_path := content ]}; dirs := ∅; mkdir_denied := ∅; console := [] |}.

(** The [data] object as [getComponentInfo] hands it on. *)
Definition sample_data (doc : componentDoc) : data :=
  {| componentName := "UserCard";
     componentFilePath := sample_path;
     componentFilePathName := "user_card";
     testDirectory := "components/__tests__";
     testCasesFile := "components/__tests__/user_card.test_cases.js";
     testFile := "components/__tests__/user_card.test.js";
     component := Some doc;
     wrapped := false;
     classifiedProps := [];
     requiredProps := [];
     optionalProps := [];
     testCasesContent := [];
     testContent := [] |}.

Definition sample_classified : data :=
  match getPropDefaults (sample_data sample_doc) with
  | inr d => d
  | inl _ => sample_data sample_doc
  end.

Definition sample_fixture : data :=
  match generateTestCasesContent sample_classified with
  | inr d => d
  | inl _ => sample_classified
  end.

Definition sample_run : world * promise data :=
  scaffold sample_path_parse sample_parse sample_parse_all (Some sample_path)
    (sample_world "direct").

Definition sample_result : data :=
  match snd sample_run with
  | Fulfilled d => d
  | _ => sample_fixture
  end.

(** ** Further readers of names and of classified props *)

Fixpoint has_char (c : ascii) (s : string) : bool :=
  match s with
  | EmptyString => false
  | String x s' => (if decide (x = c) then true else false) || has_char c s'
  end.

(** A prop descriptor on which the loop body of [getPropDefaults] does not
    throw: a union Flow type has a first element, and a prop without a Flow
    type has a [type]. *)
Definition readable (value : propDescriptor) : bool :=
  match prop_flowType value with
  | Some ft =>
      if decide (flow_name ft = "union") then
        match flow_elements ft with
        | Some (_ :: _) => true
        | _ => false
        end
      else true
  | None =>
      match prop_type value with
      | Some _ => true
      | None => false
      end
  end.


(** ** The emitted test module, block by block *)

(** The line that opens the nested block of a scenario. *)
Definition describe_of (scenario_name : string) : string :=
  "  describe(testCases." +:+ scenario_name +:+ ".description, () => {".

Definition is_describe (line : string) : bool :=
  starts_with "  describe(testCases." line.

Definition test_block_lines (len i : nat) (case_name : string) : list string :=
  [ describe_of case_name;
    "    beforeEach(() => {";
    "      testCase = testCases." +:+ case_name +:+ ";";
    "      wrapper = shallow(React.createElement(testCase.component, testCase.props));";
    "    });";
    "";
    "    it('renders', () => {";
    "      expect(toJson(wrapper)).toMatchSnapshot();";
    "    });";
    "  });" ]
  ++ (if (i =? len - 1)%nat then [] else [""]).

Fixpoint test_blocks_from (len i : nat) (names : list string) : list string :=
  match names with
  | [] => []
  | case_name :: rest => test_block_lines len i case_name ++ test_blocks_from len (S i) rest
  end.

Definition test_header (d : data) : list string :=
  [ "import React from 'react';";
    "import { shallow } from 'enzyme';";
    "import toJson from 'enzyme-to-json';";
    "import * as testCases from './" +:+ componentFilePathName d +:+ ".test_cases';";
    "";
    "describe('<" +:+ componentName d +:+ ">', () => {";
    "  let testCase;";
    "  let wrapper;";
    "" ].

(** The second state is the first with other test lines. *)
Definition only_testContent (d d' : data) : Prop :=
  d' = set_testContent (testContent d') d.

(** ** Readers of a component name *)

Definition starts_lower (s : string) : bool :=
  match s with
  | String c _ => Js.is_lower c
  | EmptyString => false
  end.

(** An underscore directly followed by a lower-case letter. *)
Fixpoint has_snake_boundary (s : string) : bool :=
  match s with
  | String a (String b _ as tail) =>
      ((if decide (a = "_"%char) then true else false) && Js.is_lower b)
      || has_snake_boundary tail
  | _ => false
  end.

(** The global replace of the component name as a single left-to-right
    pass. *)
Fixpoint camel_case (s : string) : string :=
  match s with
  | String a (String b rest as tail) =>
      if (if decide (a = "_"%char) then true else false) && Js.is_lower b
      then String (Js.to_upper b) (camel_case rest)
      else String a (camel_case tail)
  | other => other
  end.

(** A search that finds one definition in the text ["one"], none in the text
    ["none"], and throws on every other text. *)
Definition sample_parse_all_one (content : string) : option (list componentDoc) :=
  if String.eqb content "one" then Some [sample_doc]
  else if String.eqb content "none" then Some []
  else None.

Definition sample_run_wrapped : world * promise data :=
  scaffold sample_path_parse sample_parse sample_parse_all_one (Some sample_path)
    (sample_world "one").

Definition sample_result_wrapped : data :=
  match snd sample_run_wrapped with
  | Fulfilled d => d
  | _ => sample_fixture
  end.

(** ** The coverage launcher

    The second script of the repository asks [git] for the files that differ
    between two branches and runs jest with coverage collected from exactly
    those files.  [child_process.exec] is a parameter: the function from the
    command line to what its callback receives.  [process.exit] ends the
    script, so nothing after a call of [handleExit] runs. *)

Record exec_result := {
  exec_error : option string;       (* the text of [error], when there is one *)
  exec_stdout : string;
  exec_stderr : string
}.

Inductive launcher_outcome :=
| Exited (printed : string) (exitCode : nat)
| RanJest (collectCoverageFrom : list string).

Definition handleExit (message : string) (error : bool) : launcher_outcome :=
  Exited (nl +:+ message +:+ nl) (if error then 1%nat else 0%nat).

(** [s.split(sep)] for a one-character separator. *)
Fixpoint split_on (sep : ascii) (s : string) : list string :=
  match s with
  | EmptyString => [""]
  | String c s' =>
      if decide (c = sep) then "" :: split_on sep s'
      else
        match split_on sep s' with
        | piece :: pieces => String c piece :: pieces
        | [] => [String c ""]
        end
  end.

(** [stdout.split('\n').filter(i => i.length)] *)
Definition changed_files (stdout : string) : list string :=
  List.filter (fun i => negb (String.length i =? 0)%nat) (split_on (ascii_of_nat 10) stdout).

Definition msg_args : string := "Must provide base and branch args.".

Definition launch_coverage (base branch : option string)
    (exec : string -> exec_result) : launcher_outcome :=
  match base, branch with
  | Some b, Some br =>
      if Js.is_empty b || Js.is_empty br then handleExit msg_args true
      else
        let result := exec ("git diff --name-only " +:+ b +:+ ".." +:+ br) in
        match exec_error result with
        | Some error => handleExit error true
        | None =>
            if negb (Js.is_empty (exec_stderr result)) then
              handleExit (exec_stderr result) true
            else
              let files := changed_files (exec_stdout result) in
              if (length files =? 0)%nat then
                handleExit ("No diff between " +:+ b +:+ " and " +:+ br +:+ ".") false
              else RanJest files
        end
  | _, _ => handleExit msg_args true
  end.

(** A [git] that reports two changed files. *)
Definition sample_exec (command : string) : exec_result :=
  {| exec_error := None;
     exec_stdout := Js.join nl ["src/a.js"; "src/b.js"] +:+ nl;
     exec_stderr := "" |}.

(** * Properties *)

(** ** The Property Classifier *)

Example classify_string_isRequired :
  classify "title"
    {| prop_flowType := None;
       prop_type := Some {| raw := Some "PropTypes.string.isRequired" |};
       prop_required := false |}
  = inr {| name := "title"; required := Js.JBool true;
           defaultValue := Js.JStr "''"; message := "" |}.
Proof. vm_compute. reflexivity. Qed.

Example classify_without_type_info :
  classify "z"
    {| prop_flowType := None; prop_type := Some {| raw := None |}; prop_required := true |}
  = inr {| name := "z"; required := Js.JUndefined;
           defaultValue := Js.JStr "''"; message := "Could not deduce prop type" |}.
Proof. vm_compute. reflexivity. Qed.

(** Whatever the type name, the classified value is never the number [0]:
    a falsy table entry is replaced by [null]. *)
Lemma lookup_default_never_zero (key : string) : lookup_default key <> Js.JNum 0.
Proof.
  unfold lookup_default, Js.or.
  destruct (Js.truthy (propTypes_get key)) eqn:Htruthy; [|discriminate].
  intros Hzero. rewrite Hzero in Htruthy. discriminate Htruthy.
Qed.

(** C1 (the code departs from the claim): the table maps [number] to [0], but
    the lookup is written [propTypes[defaultValue] || null] and [0] is falsy,
    so a prop whose effective type name is [number], whether it comes from a
    Flow annotation or from a PropTypes text, is classified as [null], not
    as [0]. *)
Theorem C1_number_is_classified_null :
  propTypes !! "number" = Some (Js.JNum 0) /\
  lookup_default "number" = Js.JNull /\
  (forall (prop : string) (req : bool) (ty : option propType),
      classify prop
        {| prop_flowType := Some {| flow_name := "number"; flow_elements := None |};
           prop_type := ty; prop_required := req |}
      = inr {| name := prop; required := Js.JBool req;
               defaultValue := Js.JNull; message := "" |}) /\
  (forall (prop : string) (req : bool),
      classify prop
        {| prop_flowType := None;
           prop_type := Some {| raw := Some "PropTypes.number.isRequired" |};
           prop_required := req |}
      = inr {| name := prop; required := Js.JBool true;
               defaultValue := Js.JNull; message := "" |}).
Proof.
  split; [vm_compute; reflexivity|].
  split; [vm_compute; reflexivity|].
  split; intros; vm_compute; reflexivity.
Qed.

(** C5: a prop declared through the runtime-validation text
    ["PropTypes.string.isRequired"] (no Flow annotation, which would take
    precedence) gets the effective type name [string], [required = true] and
    the two-quote literal as its classified value. *)
Theorem C5_proptypes_string_isRequired :
  forall (prop : string) (req : bool),
    let value :=
      {| prop_flowType := None;
         prop_type := Some {| raw := Some "PropTypes.string.isRequired" |};
         prop_required := req |} in
    deduce value = inr ("string", Js.JBool true, "") /\
    classify prop value
    = inr {| name := prop; required := Js.JBool true;
             defaultValue := Js.JStr "''"; message := "" |}.
Proof.
  intros prop req value. split; vm_compute; reflexivity.
Qed.

(** C6: a prop with a Flow annotation named [boolean] whose required flag is
    not set is classified with [required = false] and the value [true]. *)
Theorem C6_flow_boolean_optional :
  forall (prop : string) (elements : option (list flowElement)) (ty : option propType),
    classify prop
      {| prop_flowType := Some {| flow_name := "boolean"; flow_elements := elements |};
         prop_type := ty; prop_required := false |}
    = inr {| name := prop; required := Js.JBool false;
             defaultValue := Js.JBool true; message := "" |}.
Proof.
  intros prop elements ty. reflexivity.
Qed.

(** ** Strings and joined lines *)

Lemma append_nil_r (s : string) : s +:+ "" = s.
Proof. induction s as [|c s IH]; [reflexivity | cbn; f_equal; exact IH]. Qed.

Lemma append_assoc (a b c : string) : (a +:+ b) +:+ c = a +:+ b +:+ c.
Proof. induction a as [|x a IH]; [reflexivity | cbn; f_equal; exact IH]. Qed.

Lemma append_inv_head (p a b : string) : p +:+ a = p +:+ b -> a = b.
Proof.
  induction p as [|c p IH]; simpl; intros H; [exact H|].
  injection H as H. now apply IH.
Qed.

Lemma length_append (a b : string) :
  String.length (a +:+ b) = (String.length a + String.length b)%nat.
Proof. induction a as [|c a IH]; [reflexivity | cbn; f_equal; exact IH]. Qed.

Lemma last_char_append_nl (s : string) : last_char (s +:+ nl) = Some (ascii_of_nat 10).
Proof.
  induction s as [|c s IH]; [reflexivity|].
  change (String c s +:+ nl) with (String c (s +:+ nl)).
  destruct (s +:+ nl) eqn:E; [|exact IH].
  destruct s; discriminate E.
Qed.

Lemma join_snoc (sep : string) (l : list string) (x : string) :
  l <> [] -> Js.join sep (l ++ [x]) = Js.join sep l +:+ sep +:+ x.
Proof.
  induction l as [|y l IH]; intros Hne; [congruence|].
  destruct l as [|z l]; [reflexivity|].
  change (Js.join sep ((y :: z :: l) ++ [x]))
    with (y +:+ sep +:+ Js.join sep ((z :: l) ++ [x])).
  rewrite IH by discriminate.
  change (Js.join sep (y :: z :: l)) with (y +:+ sep +:+ Js.join sep (z :: l)).
  now rewrite !append_assoc.
Qed.

(** A sequence of at least two lines that ends with the empty line is, once
    joined, a text that ends with a line break. *)
Lemma join_ends_with_newline (l : list string) :
  l <> [] -> last_char (Js.join nl (l ++ [""])) = Some (ascii_of_nat 10).
Proof.
  intros Hne. rewrite join_snoc by exact Hne.
  rewrite (append_nil_r nl). apply last_char_append_nl.
Qed.

(** ** The global replace of the component name *)

Lemma match_here_length (re : list Regex.atom) :
  forall s m rest, Regex.match_here re s = Some (m, rest) ->
    String.length s = (length re + String.length rest)%nat.
Proof.
  induction re as [|a re IH]; intros s m rest H; simpl in H.
  - injection H as _ <-. reflexivity.
  - destruct s as [|c s]; [discriminate|].
    destruct (Regex.atom_matches a c); [|discriminate].
    destruct (Regex.match_here re s) as [[m' rest']|] eqn:E; [|discriminate].
    injection H as _ <-. simpl. f_equal. now apply (IH s m').
Qed.

(** The fuel of [replace_all] is enough: more of it gives the same text. *)
Lemma replace_all_fuel_enough (re : list Regex.atom) (f : string -> string) :
  re <> [] ->
  forall fuel s, (String.length s < fuel)%nat ->
    Regex.replace_all_fuel fuel re f s = Regex.replace_all re f s.
Proof.
  intros Hre.
  assert (Hany : forall fuel1 fuel2 s,
             (String.length s < fuel1)%nat -> (String.length s < fuel2)%nat ->
             Regex.replace_all_fuel fuel1 re f s = Regex.replace_all_fuel fuel2 re f s).
  { induction fuel1 as [|fuel1 IH]; intros fuel2 s H1 H2; [lia|].
    destruct fuel2 as [|fuel2]; [lia|]. simpl.
    destruct (Regex.match_here re s) as [[m rest]|] eqn:E.
    - apply match_here_length in E.
      assert (0 < length re)%nat by (destruct re; [congruence | simpl; lia]).
      f_equal. apply IH; lia.
    - destruct s as [|c s]; [reflexivity|]. simpl in H1, H2.
      f_equal. apply IH; lia. }
  intros fuel s Hfuel. apply Hany; [exact Hfuel | lia].
Qed.

Example derive_componentName_examples :
  derive_componentName "user_card" = "UserCard" /\
  derive_componentName "Button" = "Button" /\
  derive_componentName "nav_bar_item" = "NavBarItem".
Proof. repeat split. Qed.

(** ** The relative prefix of the safe-spy import *)

Lemma split_slash_nonempty (s : string) : split_slash s <> [].
Proof.
  induction s as [|c s IH]; simpl; [discriminate|].
  destruct (Regex.not_slash c); [|discriminate].
  destruct (split_slash s); discriminate.
Qed.

Lemma split_slash_free (m : string) : slash_free m = true -> split_slash m = [m].
Proof.
  induction m as [|c m IH]; simpl; [reflexivity|].
  intros [Hc Hm]%andb_prop. rewrite Hc, (IH Hm). reflexivity.
Qed.

Lemma split_slash_cut (m r : string) :
  slash_free m = true -> split_slash (m +:+ String "/" r) = m :: split_slash r.
Proof.
  induction m as [|c m IH]; simpl; intros H; [reflexivity|].
  apply andb_prop in H as [Hc Hm]. rewrite Hc, (IH Hm). reflexivity.
Qed.

Lemma run_of_not_slash (s : string) :
  forall m rest, Regex.run_of Regex.not_slash s = (m, rest) ->
    s = m +:+ rest /\ slash_free m = true /\
    (rest = "" \/ exists r, rest = String "/" r).
Proof.
  induction s as [|c s IH]; simpl; intros m rest H.
  - injection H as <- <-. auto.
  - destruct (Regex.not_slash c) eqn:Hc.
    + destruct (Regex.run_of Regex.not_slash s) as [m' rest'] eqn:E.
      injection H as <- <-.
      destruct (IH _ _ eq_refl) as (-> & Hm & Hrest).
      simpl. rewrite Hc, Hm. auto.
    + injection H as <- <-.
      split; [reflexivity|]. split; [reflexivity|].
      right. exists s. unfold Regex.not_slash in Hc.
      destruct (decide (c = "/"%char)) as [->|]; [reflexivity | discriminate].
Qed.

Lemma join_cons (sep x : string) (l : list string) :
  l <> [] -> Js.join sep (x :: l) = x +:+ sep +:+ Js.join sep l.
Proof. destruct l; [congruence | reflexivity]. Qed.

Lemma prefix_of_segments_cut (m r : string) :
  slash_free m = true ->
  prefix_of_segments (m +:+ String "/" r)
  = segment_image m +:+ "/" +:+ prefix_of_segments r.
Proof.
  intros Hm. unfold prefix_of_segments. rewrite (split_slash_cut _ _ Hm).
  rewrite map_cons. apply join_cons.
  intros H. apply map_eq_nil in H. now apply split_slash_nonempty in H.
Qed.

Lemma replace_segments_fuel_enough (fuel : nat) :
  forall s, (String.length s + 2 <= fuel)%nat ->
    Regex.replace_segments_fuel fuel "." s = prefix_of_segments s.
Proof.
  induction fuel as [|fuel IH]; intros s Hfuel; [lia|].
  simpl. destruct (Regex.run_of Regex.not_slash s) as [m rest] eqn:E.
  destruct (run_of_not_slash _ _ _ E) as (-> & Hm & Hrest).
  destruct m as [|c m]; simpl Js.is_empty; cbv iota.
  - destruct Hrest as [-> | [r ->]]; [reflexivity|].
    simpl in Hfuel. rewrite IH by lia.
    exact (eq_sym (prefix_of_segments_cut "" r eq_refl)).
  - rewrite length_append in Hfuel. simpl in Hfuel.
    destruct Hrest as [-> | [r ->]].
    + rewrite IH by (simpl; lia). rewrite append_nil_r.
      unfold prefix_of_segments. now rewrite (split_slash_free _ Hm).
    + rewrite IH by (simpl in *; lia).
      rewrite (prefix_of_segments_cut _ r Hm).
      now rewrite (prefix_of_segments_cut "" r eq_refl : prefix_of_segments (String "/" r) = _).
Qed.

Lemma safeSpyPrefix_closed_form (dir : string) :
  safeSpyPrefix dir = prefix_of_segments dir.
Proof.
  unfold safeSpyPrefix, Regex.replace_segments.
  apply replace_segments_fuel_enough. lia.
Qed.

(** More fuel than the loop needs does not change the result. *)
Lemma replace_segments_fuel_stable (fuel : nat) (s : string) :
  (String.length s + 2 <= fuel)%nat ->
  Regex.replace_segments_fuel fuel "." s = Regex.replace_segments "." s.
Proof.
  intros H. rewrite replace_segments_fuel_enough by exact H.
  symmetry. apply safeSpyPrefix_closed_form.
Qed.

Lemma segment_image_slash_free (seg : string) : slash_free (segment_image seg) = true.
Proof. unfold segment_image. destruct (Js.is_empty seg); reflexivity. Qed.

Lemma split_slash_join (l : list string) :
  l <> [] -> Forall (fun seg => slash_free seg = true) l ->
  split_slash (Js.join "/" l) = l.
Proof.
  induction l as [|x l IH]; intros Hne Hall; [congruence|].
  apply Forall_cons in Hall as [Hx Hl].
  destruct l as [|y l].
  - simpl. now apply split_slash_free.
  - rewrite join_cons by discriminate.
    change (x +:+ "/" +:+ Js.join "/" (y :: l))
      with (x +:+ String "/" (Js.join "/" (y :: l))).
    rewrite (split_slash_cut _ _ Hx), IH; [reflexivity | discriminate | exact Hl].
Qed.

Lemma count_images (segs : list string) :
  length (List.filter (String.eqb "..") (map segment_image segs))
  = length (List.filter (fun seg => negb (Js.is_empty seg)) segs).
Proof.
  induction segs as [|seg segs IH]; [reflexivity|].
  cbn [map List.filter].
  destruct seg as [|c seg].
  - change (String.eqb ".." (segment_image "")) with false.
    cbn [Js.is_empty negb]. exact IH.
  - change (String.eqb ".." (segment_image (String c seg))) with true.
    cbn [Js.is_empty negb length]. f_equal. exact IH.
Qed.

(** ** The fixture module in closed form *)

Lemma push_cases_push_cases (l1 l2 : list string) (d : data) :
  push_cases l2 (push_cases l1 d) = push_cases (l1 ++ l2) d.
Proof. destruct d. unfold push_cases, set_testCasesContent. simpl. now rewrite <- app_assoc. Qed.

Lemma requiredPropsFormatted_push (excl : bool) (d : data) :
  requiredPropsFormatted excl d = push_cases (required_lines excl (requiredProps d)) d.
Proof. reflexivity. Qed.

Lemma optional_block_push (d : data) (p : classified) :
  optional_block d p
  = push_cases
      (optional_lines (componentName d) (wrapped_suffix d) (requiredProps d) p) d.
Proof.
  destruct d. unfold optional_block.
  rewrite requiredPropsFormatted_push, !push_cases_push_cases.
  unfold optional_lines, header_of, wrapped_suffix.
  cbn [componentName wrapped requiredProps push_cases set_testCasesContent
       testCasesContent Js.truthy app].
  destruct (message p); reflexivity.
Qed.

Lemma foldl_optional_block (opts : list classified) :
  forall d,
    foldl optional_block d opts
    = push_cases
        (flat_map (optional_lines (componentName d) (wrapped_suffix d) (requiredProps d))
           opts) d.
Proof.
  induction opts as [|p opts IH]; intros d.
  - destruct d. unfold push_cases, set_testCasesContent. simpl. now rewrite app_nil_r.
  - simpl. rewrite optional_block_push, IH, push_cases_push_cases.
    destruct d; reflexivity.
Qed.

Lemma basePropsFormatted_push (d : data) (doc : componentDoc) :
  component d = Some doc ->
  basePropsFormatted d = inr (push_cases (base_props_lines doc (requiredProps d)) d).
Proof.
  intros Hdoc. unfold basePropsFormatted, base_props_lines. rewrite Hdoc.
  destruct (props doc); [|reflexivity].
  destruct (length (requiredProps d) =? 0)%nat; [reflexivity|].
  rewrite requiredPropsFormatted_push, !push_cases_push_cases.
  reflexivity.
Qed.

Lemma generateTestCasesContent_closed_form (d : data) (doc : componentDoc) :
  component d = Some doc ->
  generateTestCasesContent d
  = inr (set_testCasesContent (fixture_lines d doc)
           (set_optionalProps (optional_of d)
              (set_requiredProps (required_of d) d))).
Proof.
  intros Hdoc. destruct d. cbn [component] in Hdoc. subst.
  unfold generateTestCasesContent.
  cbn [set_testCasesContent set_requiredProps set_optionalProps
       componentName componentFilePath componentFilePathName testDirectory
       testCasesFile testFile component wrapped classifiedProps requiredProps
       optionalProps testCasesContent testContent].
  rewrite !push_cases_push_cases.
  erewrite basePropsFormatted_push by reflexivity.
  rewrite !push_cases_push_cases, foldl_optional_block, push_cases_push_cases.
  unfold fixture_lines, base_lines, import_lines, wrapped_suffix,
    required_of, optional_of.
  cbn [push_cases set_testCasesContent set_requiredProps set_optionalProps
       componentName componentFilePath componentFilePathName testDirectory
       testCasesFile testFile component wrapped classifiedProps requiredProps
       optionalProps testCasesContent testContent].
  do 2 f_equal.
Qed.

(** ** Cutting the fixture module into scenario blocks *)

Lemma starts_with_append (a b : string) : starts_with a (a +:+ b) = true.
Proof.
  induction a as [|c a IH]; [reflexivity|].
  cbn. now rewrite Ascii.eqb_refl.
Qed.

Lemma is_export_header (n : string) : is_export (header_of n) = true.
Proof. apply (starts_with_append "export const "). Qed.

Lemma scenarios_aux_plain (pre rest : list string) :
  plain pre ->
  scenarios_aux (pre ++ rest)
  = (pre ++ fst (scenarios_aux rest), snd (scenarios_aux rest)).
Proof.
  induction 1 as [|line pre Hline _ IH].
  - simpl. now destruct (scenarios_aux rest).
  - cbn [app scenarios_aux]. rewrite IH, Hline. reflexivity.
Qed.

Lemma scenarios_aux_block (h : string) (body rest : list string) :
  is_export h = true -> plain body ->
  scenarios_aux (h :: body ++ rest)
  = ([], (h :: body ++ fst (scenarios_aux rest)) :: snd (scenarios_aux rest)).
Proof.
  intros Hh Hbody. cbn [scenarios_aux].
  rewrite (scenarios_aux_plain _ _ Hbody), Hh. reflexivity.
Qed.

Lemma scenarios_aux_blocks {A : Type} (f : A -> list string) (l : list A) :
  (forall x, exists h body, f x = h :: body /\ is_export h = true /\ plain body) ->
  scenarios_aux (flat_map f l) = ([], map f l).
Proof.
  intros Hf. induction l as [|x l IH]; [reflexivity|].
  destruct (Hf x) as (h & body & Hx & Hh & Hbody).
  cbn [flat_map map]. rewrite Hx. cbn [app].
  rewrite (scenarios_aux_block _ _ _ Hh Hbody), IH. cbn [fst snd].
  now rewrite app_nil_r.
Qed.

Lemma required_line_indented (excl : bool) (len i : nat) (p : classified) :
  exists t, required_line excl len i p = String " " (String " " (String " " (String " " t))).
Proof. eexists. reflexivity. Qed.

Lemma Forall_required_lines (P : string -> Prop) (excl : bool) (reqs : list classified) :
  (forall len i p, P (required_line excl len i p)) ->
  Forall P (required_lines excl reqs).
Proof.
  intros HP. apply Forall_forall. intros line Hline.
  apply elem_of_lookup_imap_1 in Hline as (i & p & -> & _). apply HP.
Qed.

Lemma required_lines_plain (excl : bool) (reqs : list classified) :
  plain (required_lines excl reqs).
Proof.
  apply Forall_required_lines. intros len i p.
  destruct (required_line_indented excl len i p) as [t ->]. reflexivity.
Qed.

Lemma base_props_lines_plain (doc : componentDoc) (reqs : list classified) :
  plain (base_props_lines doc reqs).
Proof.
  unfold base_props_lines.
  destruct (props doc); [|repeat constructor].
  destruct (length reqs =? 0)%nat; [repeat constructor|].
  constructor; [reflexivity|].
  apply Forall_app. split; [apply required_lines_plain | repeat constructor].
Qed.

Lemma optional_lines_block (cn sfx : string) (reqs : list classified) (p : classified) :
  exists h body,
    optional_lines cn sfx reqs p = h :: body /\ is_export h = true /\ plain body.
Proof.
  eexists _, _. split; [reflexivity|]. split; [apply is_export_header|].
  repeat (constructor; [reflexivity|]).
  apply Forall_app. split; [apply required_lines_plain|].
  repeat (constructor; [reflexivity|]). constructor.
Qed.

(** The fixture module is the [base] block followed by one block per
    optional prop. *)
Lemma scenarios_fixture_lines (d : data) (doc : componentDoc) :
  scenarios (fixture_lines d doc)
  = base_lines (componentName d) (wrapped_suffix d) doc (required_of d)
    :: map (optional_lines (componentName d) (wrapped_suffix d) (required_of d))
         (optional_of d).
Proof.
  unfold scenarios, fixture_lines.
  rewrite scenarios_aux_plain by (repeat constructor).
  cbn [snd]. unfold base_lines.
  match goal with
  | |- snd (scenarios_aux ((?h :: ?body) ++ ?F)) = _ =>
      change ((h :: body) ++ F) with (h :: body ++ F);
      rewrite (scenarios_aux_block h body F)
  end.
  - rewrite scenarios_aux_blocks by (intros x; apply optional_lines_block).
    cbn [fst snd]. now rewrite app_nil_r.
  - reflexivity.
  - repeat (constructor; [reflexivity|]).
    apply Forall_app. split; [apply base_props_lines_plain | repeat constructor].
Qed.

(** ** The props of a scenario block *)

Lemma sets_prop_line (p : classified) (suffix : string) :
  sets_prop p
    ("    " +:+ name p +:+ ": " +:+ Js.to_string (defaultValue p) +:+ suffix) = true.
Proof.
  unfold sets_prop.
  rewrite <- (append_assoc ": " _ suffix), <- (append_assoc (name p) _ suffix),
    <- (append_assoc "    " _ suffix).
  apply starts_with_append.
Qed.

Lemma lines_after_skip (start line : string) (rest : list string) :
  String.eqb line start = false ->
  lines_after start (line :: rest) = lines_after start rest.
Proof. intros H. cbn [lines_after]. now rewrite H. Qed.

Lemma lines_after_found (start : string) (rest : list string) :
  lines_after start (start :: rest) = rest.
Proof. cbn [lines_after]. now rewrite String.eqb_refl. Qed.

Lemma lines_until_stop (stop : string) (xs rest : list string) :
  Forall (fun line => String.eqb line stop = false) xs ->
  lines_until stop (xs ++ stop :: rest) = xs.
Proof.
  induction 1 as [|line xs Hline _ IH]; cbn [app lines_until].
  - now rewrite String.eqb_refl.
  - now rewrite Hline, IH.
Qed.

Lemma required_lines_not_closing (excl : bool) (reqs : list classified) :
  Forall (fun line => String.eqb line "  }" = false) (required_lines excl reqs).
Proof.
  apply Forall_required_lines. intros len i p.
  destruct (required_line_indented excl len i p) as [t ->]. reflexivity.
Qed.

Lemma props_block_base (cn sfx : string) (doc : componentDoc) (reqs : list classified) :
  reqs <> [] -> props doc <> None ->
  props_block (base_lines cn sfx doc reqs) = required_lines true reqs.
Proof.
  intros Hreqs Hprops. unfold props_block, base_lines, base_props_lines.
  destruct (props doc); [|congruence].
  destruct reqs as [|r reqs]; [congruence|].
  cbn [length Nat.eqb].
  rewrite !lines_after_skip by reflexivity.
  cbn [app]. rewrite lines_after_found, <- app_assoc.
  apply lines_until_stop, required_lines_not_closing.
Qed.

Lemma props_block_optional (cn sfx : string) (reqs : list classified) (p : classified) :
  exists own,
    props_block (optional_lines cn sfx reqs p) = required_lines false reqs ++ [own] /\
    sets_prop p own = true.
Proof.
  eexists. unfold props_block, optional_lines, header_of.
  rewrite !lines_after_skip by reflexivity.
  rewrite lines_after_found.
  split.
  - change (required_lines false reqs ++ [?own; "  }"; "};"; ""])
      with (required_lines false reqs ++ [own] ++ "  }" :: ["};"; ""]).
    rewrite app_assoc. apply lines_until_stop.
    apply Forall_app. split; [apply required_lines_not_closing|].
    repeat constructor.
  - apply sets_prop_line.
Qed.

(** ** What the classifier hands to the emitters *)

Lemma getPropDefaults_inv (d0 d1 : data) :
  getPropDefaults d0 = inr d1 ->
  exists doc cs,
    component d0 = Some doc /\
    classify_all (default [] (props doc)) = inr cs /\
    d1 = set_classifiedProps cs d0.
Proof.
  unfold getPropDefaults. intros H.
  destruct (component d0) as [doc|]; [|discriminate].
  destruct (classify_all (default [] (props doc))) as [e|cs] eqn:E; [discriminate|].
  injection H as <-. eauto.
Qed.

Lemma generateTestCasesContent_undefined (d : data) :
  component d = None ->
  generateTestCasesContent d
  = inl (TypeError "Cannot read property 'props' of undefined").
Proof.
  intros Hdoc. destruct d. cbn [component] in Hdoc. subst.
  unfold generateTestCasesContent.
  cbn [set_testCasesContent set_requiredProps set_optionalProps
       componentName componentFilePath componentFilePathName testDirectory
       testCasesFile testFile component wrapped classifiedProps requiredProps
       optionalProps testCasesContent testContent].
  rewrite !push_cases_push_cases. reflexivity.
Qed.

Lemma generateTestCasesContent_inv (d d' : data) :
  generateTestCasesContent d = inr d' ->
  exists doc,
    component d = Some doc /\
    d' = set_testCasesContent (fixture_lines d doc)
           (set_optionalProps (optional_of d) (set_requiredProps (required_of d) d)).
Proof.
  intros H. destruct (component d) as [doc|] eqn:Hdoc.
  - exists doc. split; [reflexivity|].
    rewrite (generateTestCasesContent_closed_form d doc Hdoc) in H. congruence.
  - rewrite (generateTestCasesContent_undefined d Hdoc) in H. discriminate H.
Qed.

(** Only the last branch of the classifier attaches a message, and it leaves
    [required] undefined: a required prop never carries a diagnostic. *)
Lemma classify_required_no_message (prop : string) (value : propDescriptor) (c : classified) :
  classify prop value = inr c -> is_required c = true -> message c = "".
Proof.
  unfold classify, deduce. intros H Hreq.
  destruct (prop_flowType value) as [ft|].
  - destruct (decide (flow_name ft = "union")).
    + destruct (flow_elements ft) as [[|first rest]|]; try discriminate.
      injection H as <-. reflexivity.
    + injection H as <-. reflexivity.
  - destruct (prop_type value) as [ty|]; [|discriminate].
    destruct (raw ty) as [r|].
    + destruct (Js.is_empty r); injection H as <-; [discriminate Hreq | reflexivity].
    + injection H as <-. discriminate Hreq.
Qed.

Lemma classify_all_required_no_message (entries : list (string * propDescriptor)) :
  forall cs, classify_all entries = inr cs ->
    Forall (fun c => is_required c = true -> message c = "") cs.
Proof.
  induction entries as [|[prop value] entries IH]; intros cs H; simpl in H.
  - injection H as <-. constructor.
  - destruct (classify prop value) as [e|c] eqn:Hc; [discriminate|].
    destruct (classify_all entries) as [e|cs'] eqn:Hcs; [discriminate|].
    injection H as <-. constructor; [|now apply IH].
    now apply (classify_required_no_message prop value).
Qed.

Lemma required_line_sets_prop (excl : bool) (len i : nat) (p : classified) :
  sets_prop p (required_line excl len i p) = true.
Proof.
  unfold required_line. cbv zeta. apply sets_prop_line.
Qed.

Lemma required_lines_set_every_prop (excl : bool) (reqs : list classified) (p : classified) :
  p ∈ reqs -> exists line, line ∈ required_lines excl reqs /\ sets_prop p line = true.
Proof.
  intros [i Hi]%list_elem_of_lookup.
  exists (required_line excl (length reqs) i p). split.
  - unfold required_lines. now apply elem_of_lookup_imap_2.
  - apply required_line_sets_prop.
Qed.

(** ** The Fixture Emitter *)

Example required_line_comment_is_literal :
  required_line true 1 0
    {| name := "x"; required := Js.JBool true; defaultValue := Js.JStr "''";
       message := "Could not deduce prop type" |}
  = "    x: '' // message".
Proof. reflexivity. Qed.

(** C2: when the component has at least one required prop, the props of the
    [base] scenario are one line per required prop, in order, each
    [name: classifiedValue] followed by a comma except on the last line and
    by the prop's diagnostic as a trailing comment when it has one.  (The
    props reach the emitter from the classifier, which never attaches a
    diagnostic to a required prop.) *)
Theorem C2_base_lines_of_required_props :
  forall d0 d1 d2 : data,
    getPropDefaults d0 = inr d1 ->
    generateTestCasesContent d1 = inr d2 ->
    requiredProps d2 <> [] ->
    exists base others,
      scenarios (testCasesContent d2) = base :: others /\
      head base = Some (header_of "base") /\
      props_block base
      = imap (spec_base_line (length (requiredProps d2))) (requiredProps d2).
Proof.
  intros d0 d1 d2 H1 H2 Hreq.
  destruct (getPropDefaults_inv _ _ H1) as (doc & cs & Hdoc & Hcs & ->).
  destruct (generateTestCasesContent_inv _ _ H2) as (doc' & Hdoc' & ->).
  assert (doc' = doc) as -> by (destruct d0; cbn in *; congruence).
  change (requiredProps _) with (List.filter is_required cs) in *.
  change (testCasesContent _)
    with (fixture_lines (set_classifiedProps cs d0) doc).
  rewrite scenarios_fixture_lines.
  eexists _, _. split; [reflexivity|]. split; [reflexivity|].
  change (required_of _) with (List.filter is_required cs).
  rewrite props_block_base; [|exact Hreq|].
  - apply imap_ext. intros i p Hp.
    assert (message p = "") as Hmsg.
    { apply list_elem_of_lookup_2 in Hp.
      apply list_elem_of_In, filter_In in Hp as [Hin Hr].
      pose proof (classify_all_required_no_message _ _ Hcs) as Hall.
      rewrite Forall_forall in Hall. apply Hall; [|exact Hr].
      now apply list_elem_of_In. }
    unfold required_line, spec_base_line, spec_diagnostic_comment.
    rewrite Hmsg. reflexivity.
  - intros Hnone. rewrite Hnone in Hcs. cbn in Hcs. injection Hcs as <-.
    now apply Hreq.
Qed.

(** C4: the fixture module has exactly [1 + M] scenarios, [base] and then one
    per optional prop in encounter order, and the props of every scenario
    contain a line for every required prop. *)
Theorem C4_scenario_count_and_required_props :
  forall d0 d1 d2 : data,
    getPropDefaults d0 = inr d1 ->
    generateTestCasesContent d1 = inr d2 ->
    let blocks := scenarios (testCasesContent d2) in
    requiredProps d2 = List.filter is_required (classifiedProps d1) /\
    optionalProps d2 = List.filter (fun p => negb (is_required p)) (classifiedProps d1) /\
    length blocks = (1 + length (optionalProps d2))%nat /\
    map head blocks
    = map Some (header_of "base" :: map (fun p => header_of (name p)) (optionalProps d2)) /\
    forall blk p, blk ∈ blocks -> p ∈ requiredProps d2 ->
      exists line, line ∈ props_block blk /\ sets_prop p line = true.
Proof.
  intros d0 d1 d2 H1 H2 blocks. subst blocks.
  destruct (getPropDefaults_inv _ _ H1) as (doc & cs & Hdoc & Hcs & ->).
  destruct (generateTestCasesContent_inv _ _ H2) as (doc' & Hdoc' & ->).
  assert (doc' = doc) as -> by (destruct d0; cbn in *; congruence).
  change (requiredProps _) with (List.filter is_required cs).
  change (optionalProps _) with (List.filter (fun p => negb (is_required p)) cs).
  change (classifiedProps _) with cs.
  change (testCasesContent _)
    with (fixture_lines (set_classifiedProps cs d0) doc).
  rewrite scenarios_fixture_lines.
  change (required_of _) with (List.filter is_required cs).
  change (optional_of _) with (List.filter (fun p => negb (is_required p)) cs).
  set (reqs := List.filter is_required cs).
  set (opts := List.filter (fun p => negb (is_required p)) cs).
  split; [reflexivity|]. split; [reflexivity|].
  split; [cbn [length]; now rewrite length_map|].
  split.
  { cbn [map]. f_equal. rewrite !map_map. reflexivity. }
  intros blk p Hblk Hp.
  apply elem_of_cons in Hblk as [-> | Hblk].
  - rewrite props_block_base.
    + now apply required_lines_set_every_prop.
    + intros Hnil. rewrite Hnil in Hp. now apply elem_of_nil in Hp.
    + intros Hnone. rewrite Hnone in Hcs. cbn in Hcs. injection Hcs as <-.
      subst reqs. now apply elem_of_nil in Hp.
  - apply list_elem_of_In, in_map_iff in Hblk as (q & <- & _).
    match goal with
    | |- context [props_block (optional_lines ?cn ?sfx reqs q)] =>
        destruct (props_block_optional cn sfx reqs q) as (own & -> & _)
    end.
    destruct (required_lines_set_every_prop false reqs p Hp) as (line & Hline & Hsets).
    exists line. split; [|exact Hsets].
    apply elem_of_app. now left.
Qed.

(** C7: for a component without declared props the [base] scenario is the
    only scenario, and its props are the one-line empty object with its
    explanatory comment. *)
Theorem C7_no_declared_props :
  forall (d0 : data) (doc : componentDoc),
    component d0 = Some doc ->
    default [] (props doc) = [] ->
    exists d1 d2,
      getPropDefaults d0 = inr d1 /\
      generateTestCasesContent d1 = inr d2 /\
      scenarios (testCasesContent d2)
      = [ [ "export const base = {";
            "  description: 'base',";
            component_line d0;
            "  props: {} // " +:+
              match props doc with
              | None => "could not find prop type declarations"
              | Some _ => "could not find required props"
              end;
            "}";
            "" ] ].
Proof.
  intros d0 doc Hdoc Hempty.
  exists (set_classifiedProps [] d0). eexists. split; [|split].
  - unfold getPropDefaults. rewrite Hdoc, Hempty. reflexivity.
  - apply generateTestCasesContent_closed_form. destruct d0; exact Hdoc.
  - change (testCasesContent _)
      with (fixture_lines (set_classifiedProps [] d0) doc).
    rewrite scenarios_fixture_lines.
    unfold base_lines, base_props_lines, required_of, optional_of, component_line,
      wrapped_suffix.
    destruct d0; cbn. destruct (props doc); reflexivity.
Qed.

(** C8: the second line of the fixture module imports the safe-spy helper
    through a prefix in which every path segment of the test directory is
    replaced by [..] (an empty piece between slashes, as before a leading
    slash, by [.]), so the prefix has as many [..] segments as the test
    directory has path segments. *)
Theorem C8_safe_spy_prefix_depth :
  forall d d' : data,
    generateTestCasesContent d = inr d' ->
    testCasesContent d' !! 1%nat
    = Some ("import safeSpy from '" +:+ safeSpyPrefix (testDirectory d) +:+ "/test/safe_spy';") /\
    safeSpyPrefix (testDirectory d)
    = Js.join "/" (map segment_image (split_slash (testDirectory d))) /\
    count_dotdot (safeSpyPrefix (testDirectory d)) = length (path_segments (testDirectory d)).
Proof.
  intros d d' H.
  destruct (generateTestCasesContent_inv _ _ H) as (doc & Hdoc & ->).
  split; [reflexivity|].
  split; [apply safeSpyPrefix_closed_form|].
  unfold count_dotdot, path_segments.
  rewrite safeSpyPrefix_closed_form. unfold prefix_of_segments.
  rewrite split_slash_join.
  - apply count_images.
  - intros Hnil. apply map_eq_nil in Hnil. now apply split_slash_nonempty in Hnil.
  - apply Forall_forall. intros seg Hseg.
    apply list_elem_of_In, in_map_iff in Hseg as (s & <- & _).
    apply segment_image_slash_free.
Qed.

(** ** The Test Emitter *)

Lemma same_paths_refl (d : data) : same_paths d d.
Proof. repeat split. Qed.

Lemma same_paths_trans (d1 d2 d3 : data) :
  same_paths d1 d2 -> same_paths d2 d3 -> same_paths d1 d3.
Proof. unfold same_paths. intros (-> & -> & ->) (-> & -> & ->). repeat split. Qed.

Lemma push_test_paths (lines : list string) (d : data) : same_paths d (push_test lines d).
Proof. repeat split. Qed.

Lemma test_block_paths (len : nat) (d : data) (i : nat) (case_name : string) :
  same_paths d (test_block len d i case_name).
Proof. unfold test_block. destruct (i =? len - 1)%nat; repeat split. Qed.

Lemma forEach_indexed_paths {A : Type} (f : data -> nat -> A -> data) (l : list A) :
  (forall d i x, same_paths d (f d i x)) ->
  forall i d, same_paths d (forEach_indexed f i l d).
Proof.
  intros Hf. induction l as [|x l IH]; intros i d; [apply same_paths_refl|].
  cbn [forEach_indexed]. eapply same_paths_trans; [apply Hf | apply IH].
Qed.

Lemma generateTestContent_paths (d : data) : same_paths d (generateTestContent d).
Proof.
  unfold generateTestContent.
  eapply same_paths_trans; [|apply push_test_paths].
  eapply same_paths_trans; [|apply push_test_paths].
  eapply same_paths_trans;
    [|apply forEach_indexed_paths; intros; apply test_block_paths].
  repeat split.
Qed.

Lemma push_test_cases (lines : list string) (d : data) :
  testCasesContent (push_test lines d) = testCasesContent d.
Proof. reflexivity. Qed.

Lemma test_block_cases (len : nat) (d : data) (i : nat) (case_name : string) :
  testCasesContent (test_block len d i case_name) = testCasesContent d.
Proof. unfold test_block. destruct (i =? len - 1)%nat; reflexivity. Qed.

Lemma forEach_indexed_cases {A : Type} (f : data -> nat -> A -> data) (l : list A) :
  (forall d i x, testCasesContent (f d i x) = testCasesContent d) ->
  forall i d, testCasesContent (forEach_indexed f i l d) = testCasesContent d.
Proof.
  intros Hf. induction l as [|x l IH]; intros i d; [reflexivity|].
  cbn [forEach_indexed]. now rewrite IH, Hf.
Qed.

(** The Test Emitter leaves the fixture lines alone. *)
Lemma generateTestContent_cases (d : data) :
  testCasesContent (generateTestContent d) = testCasesContent d.
Proof.
  unfold generateTestContent. rewrite !push_test_cases.
  rewrite forEach_indexed_cases by (intros; apply test_block_cases).
  reflexivity.
Qed.

Lemma generateTestContent_last (d : data) :
  exists l, l <> [] /\ testContent (generateTestContent d) = l ++ [""].
Proof.
  unfold generateTestContent.
  match goal with
  | |- context [push_test [""] (push_test ["});"] ?x)] =>
      exists (testContent x ++ ["});"])
  end.
  split; [|reflexivity].
  intros H. apply app_eq_nil in H as [_ H]. discriminate H.
Qed.

Lemma fixture_lines_last (d : data) (doc : componentDoc) :
  exists l, l <> [] /\ fixture_lines d doc = l ++ [""].
Proof.
  unfold fixture_lines.
  destruct (optional_of d) as [|p opts _] using rev_ind.
  - cbn [flat_map]. rewrite app_nil_r. unfold base_lines.
    eexists (import_lines _ _ _ ++ _ :: _ :: _ :: base_props_lines _ _ ++ ["}"]).
    split; [discriminate|].
    rewrite <- !app_assoc. cbn [app]. rewrite <- !app_assoc. reflexivity.
  - rewrite flat_map_app. cbn [flat_map]. rewrite app_nil_r. unfold optional_lines at 2.
    eexists (import_lines _ _ _ ++ base_lines _ _ _ _ ++ flat_map _ opts
               ++ _ :: _ :: _ :: _ :: required_lines false _ ++ [_; "  }"; "};"]).
    split; [discriminate|].
    rewrite <- !app_assoc. cbn [app]. rewrite <- !app_assoc. reflexivity.
Qed.

(** ** The pipeline *)

Section PipelineProperties.

Variable path_parse : string -> string * string.
Variable reactDocs_parse : string -> option componentDoc.
Variable reactDocs_parse_all : string -> option (list componentDoc).

#[local] Abbreviation getInfo := (getComponentInfo reactDocs_parse reactDocs_parse_all).
#[local] Abbreviation run := (scaffold path_parse reactDocs_parse reactDocs_parse_all).
#[local] Abbreviation run_main := (main path_parse reactDocs_parse reactDocs_parse_all).

(** The chain of [then] calls, stage by stage. *)
Lemma scaffold_stages (argv2 : option string) (w : world) :
  run argv2 w
  = match getFileAndComponentName path_parse argv2 with
    | Fulfilled d0 =>
        match getInfo d0 w with
        | (w1, Fulfilled d1) =>
            match getPropDefaults d1 with
            | inr d2 =>
                match generateTestCasesContent d2 with
                | inr d3 =>
                    match createTestsDir (generateTestContent d3) w1 with
                    | (w2, Fulfilled d4) => createTestFiles d4 w2
                    | (w2, Rejected e) => (w2, Rejected e)
                    | (w2, Pending) => (w2, Pending)
                    end
                | inl e => (w1, Rejected e)
                end
            | inl e => (w1, Rejected e)
            end
        | (w1, Rejected e) => (w1, Rejected e)
        | (w1, Pending) => (w1, Pending)
        end
    | Rejected e => (w, Rejected e)
    | Pending => (w, Pending)
    end.
Proof.
  unfold scaffold, io_then, pure_stage.
  destruct (getFileAndComponentName path_parse argv2) as [|d0|e]; try reflexivity.
  destruct (getInfo d0 w) as [w1 [|d1|e]]; try reflexivity.
  destruct (getPropDefaults d1) as [e|d2]; [reflexivity|]. cbn [of_result].
  destruct (generateTestCasesContent d2) as [e|d3]; [reflexivity|]. cbn [of_result].
  reflexivity.
Qed.

Lemma getFileAndComponentName_inv (argv2 : option string) (d0 : data) :
  getFileAndComponentName path_parse argv2 = Fulfilled d0 ->
  exists filepath,
    argv2 = Some filepath /\ componentFilePath d0 = filepath /\
    testCasesFile d0 <> testFile d0.
Proof.
  unfold getFileAndComponentName. intros H.
  destruct argv2 as [filepath|]; [|discriminate].
  destruct (Js.is_empty filepath); [discriminate|].
  destruct (path_parse filepath) as [dir name0].
  injection H as <-. exists filepath. repeat split.
  cbn [testCasesFile testFile]. intros Heq.
  apply append_inv_head in Heq. injection Heq as Heq.
  apply append_inv_head in Heq. discriminate Heq.
Qed.

(** [getComponentInfo] only reads: the world is left as it is, and the
    outcome depends on nothing but the content of the source file. *)
Lemma getComponentInfo_same_source (d : data) (w w' : world) :
  files w !! componentFilePath d = files w' !! componentFilePath d ->
  snd (getInfo d w) = snd (getInfo d w').
Proof.
  intros H. unfold getComponentInfo. rewrite <- H.
  destruct (files w !! componentFilePath d); reflexivity.
Qed.

Lemma getComponentInfo_world (d : data) (w : world) : fst (getInfo d w) = w.
Proof.
  unfold getComponentInfo. destruct (files w !! componentFilePath d); reflexivity.
Qed.

Lemma on_all_definitions_paths (res : list componentDoc) (d d' : data) :
  settled (on_all_definitions res {| obj := d; cell := Pending |}) = Fulfilled d' ->
  same_paths d d'.
Proof.
  unfold on_all_definitions. destruct (1 <? length res)%nat; cbn; [discriminate|].
  intros H. injection H as <-. repeat split.
Qed.

Lemma getComponentInfo_paths (d d' : data) (w w' : world) :
  getInfo d w = (w', Fulfilled d') -> same_paths d d'.
Proof.
  unfold getComponentInfo.
  destruct (files w !! componentFilePath d) as [content|]; [|discriminate].
  destruct (reactDocs_parse content) as [doc|].
  - cbn. intros H. injection H as _ <-. repeat split.
  - destruct (reactDocs_parse_all content) as [res|]; [|discriminate].
    intros H. injection H as _ H. now apply on_all_definitions_paths in H.
Qed.

Lemma createTestsDir_inv (d d' : data) (w w' : world) :
  createTestsDir d w = (w', Fulfilled d') ->
  d' = d /\ files w' = files w /\ mkdir_denied w' = mkdir_denied w /\
  testDirectory d ∈ dirs w' /\ dirs w ⊆ dirs w'.
Proof.
  unfold createTestsDir.
  destruct (decide (testDirectory d ∈ dirs w)) as [Hin|Hout].
  - cbn. intros H. injection H as <- <-. repeat split; [exact Hin | set_solver].
  - destruct (decide (testDirectory d ∈ mkdir_denied w)); [discriminate|].
    cbn. intros H. injection H as <- <-. repeat split; cbn; set_solver.
Qed.

Lemma createTestsDir_exists (d : data) (w : world) :
  testDirectory d ∈ dirs w -> createTestsDir d w = (w, Fulfilled d).
Proof.
  intros Hin. unfold createTestsDir.
  destruct (decide (testDirectory d ∈ dirs w)); [reflexivity | contradiction].
Qed.

(** What a fulfilled chain went through. *)
Lemma scaffold_fulfilled_inv (argv2 : option string) (w w' : world) (d : data) :
  run argv2 w = (w', Fulfilled d) ->
  exists filepath d0 d1 d2 d3 w2,
    argv2 = Some filepath /\
    getFileAndComponentName path_parse argv2 = Fulfilled d0 /\
    getInfo d0 w = (w, Fulfilled d1) /\
    getPropDefaults d1 = inr d2 /\
    generateTestCasesContent d2 = inr d3 /\
    d = generateTestContent d3 /\
    createTestsDir d w = (w2, Fulfilled d) /\
    w' = write_file (testFile d) (Js.join nl (testContent d))
           (write_file (testCasesFile d) (Js.join nl (testCasesContent d)) w2).
Proof.
  rewrite scaffold_stages. intros H.
  destruct (getFileAndComponentName path_parse argv2) as [|d0|e] eqn:H0;
    try discriminate.
  destruct (getFileAndComponentName_inv _ _ H0) as (filepath & -> & _).
  pose proof (getComponentInfo_world d0 w) as Hw.
  destruct (getInfo d0 w) as [w1 [|d1|e]] eqn:H1; try discriminate.
  cbn in Hw. subst w1.
  destruct (getPropDefaults d1) as [e|d2] eqn:H2; [discriminate|].
  destruct (generateTestCasesContent d2) as [e|d3] eqn:H3; [discriminate|].
  destruct (createTestsDir (generateTestContent d3) w) as [w2 [|d4|e]] eqn:H4;
    try discriminate.
  destruct (createTestsDir_inv _ _ _ _ H4) as (-> & _).
  unfold createTestFiles in H. injection H as <- <-.
  exists filepath, d0, d1, d2, d3, w2. repeat split; assumption.
Qed.

Lemma scaffold_fulfilled_distinct_files (argv2 : option string) (w w' : world) (d : data) :
  run argv2 w = (w', Fulfilled d) -> testCasesFile d <> testFile d.
Proof.
  intros H.
  destruct (scaffold_fulfilled_inv _ _ _ _ H)
    as (filepath & d0 & d1 & d2 & d3 & w2 & _ & H0 & H1 & H2 & H3 & Hd & _).
  destruct (getFileAndComponentName_inv _ _ H0) as (_ & _ & _ & Hne).
  apply getComponentInfo_paths in H1 as (_ & E1 & F1).
  destruct (getPropDefaults_inv _ _ H2) as (doc & cs & _ & _ & ->).
  destruct (generateTestCasesContent_inv _ _ H3) as (doc' & _ & ->).
  destruct (generateTestContent_paths
              (set_testCasesContent (fixture_lines (set_classifiedProps cs d1) doc')
                 (set_optionalProps (optional_of (set_classifiedProps cs d1))
                    (set_requiredProps (required_of (set_classifiedProps cs d1))
                       (set_classifiedProps cs d1))))) as (_ & E & F).
  rewrite Hd, E, F. cbn. congruence.
Qed.

(** C3: when the direct parse throws and the search for all definitions
    returns two or more, the promise of [getComponentInfo] is rejected with
    the multiple-definitions message and the [resolve] that follows the
    [reject] changes nothing; the chain stops there, the message is printed,
    and no file or directory is created. *)
Theorem C3_ambiguous_component_aborts :
  forall (filepath content : string) (res : list componentDoc) (w : world),
    Js.is_empty filepath = false ->
    files w !! filepath = Some content ->
    reactDocs_parse content = None ->
    reactDocs_parse_all content = Some res ->
    (2 <= length res)%nat ->
    (forall d, settled (on_all_definitions res {| obj := d; cell := Pending |})
               = Rejected (Message msg_multiple)) /\
    run (Some filepath) w = (w, Rejected (Message msg_multiple)) /\
    run_main (Some filepath) w = console_log (nl +:+ msg_multiple +:+ nl) w /\
    files (run_main (Some filepath) w) = files w /\
    dirs (run_main (Some filepath) w) = dirs w.
Proof.
  intros filepath content res w Hpath Hfile Hdirect Hall Hlen.
  assert (Hmany : (1 <? length res)%nat = true) by (apply Nat.ltb_lt; lia).
  assert (Hcell : forall d,
             settled (on_all_definitions res {| obj := d; cell := Pending |})
             = Rejected (Message msg_multiple)).
  { intros d. unfold on_all_definitions. rewrite Hmany. reflexivity. }
  assert (Hrun : run (Some filepath) w = (w, Rejected (Message msg_multiple))).
  { rewrite scaffold_stages. unfold getFileAndComponentName. rewrite Hpath.
    destruct (path_parse filepath) as [dir name0].
    unfold getComponentInfo. cbn [componentFilePath].
    rewrite Hfile, Hdirect, Hall, Hcell. reflexivity. }
  assert (Hmain : run_main (Some filepath) w
                  = console_log (nl +:+ msg_multiple +:+ nl) w).
  { unfold main, io_catch, io_then.
    change (scaffold path_parse reactDocs_parse reactDocs_parse_all (Some filepath) w)
      with (run (Some filepath) w).
    rewrite Hrun. reflexivity. }
  repeat split; try assumption; rewrite Hmain; reflexivity.
Qed.

(** C9: a second run on the unmodified source file is fulfilled with the
    same [data] object as the first, so with the same fixture and test
    lines, and it leaves the content of every file as the first run left
    it; this holds whichever way the component was found, in particular for
    a directly discoverable one. *)
Theorem C9_second_run_same_texts :
  forall (filepath content : string) (w w1 : world) (d : data),
    files w !! filepath = Some content ->
    run (Some filepath) w = (w1, Fulfilled d) ->
    files w1 !! filepath = Some content ->
    exists w2,
      run (Some filepath) w1 = (w2, Fulfilled d) /\
      files w2 = files w1 /\
      files w2 !! testCasesFile d = Some (Js.join nl (testCasesContent d)) /\
      files w2 !! testFile d = Some (Js.join nl (testContent d)).
Proof.
  intros filepath content w w1 d Hsrc Hrun Hsame.
  pose proof (scaffold_fulfilled_distinct_files _ _ _ _ Hrun) as Hne.
  destruct (scaffold_fulfilled_inv _ _ _ _ Hrun)
    as (filepath' & d0 & d1 & d2 & d3 & w0 & Hargv & H0 & H1 & H2 & H3 & Hd & H4 & Hw1).
  injection Hargv as <-.
  destruct (getFileAndComponentName_inv _ _ H0) as (f & Hf & Hpath & _).
  injection Hf as <-.
  destruct (createTestsDir_inv _ _ _ _ H4) as (_ & _ & _ & Hdir & _).
  eexists. split; [|split; [|split]].
  - rewrite scaffold_stages, H0.
    assert (Hinfo : getInfo d0 w1 = (w1, Fulfilled d1)).
    { apply injective_projections.
      - apply getComponentInfo_world.
      - rewrite (getComponentInfo_same_source d0 w1 w), H1; [reflexivity|].
        rewrite Hpath. congruence. }
    rewrite Hinfo, H2, H3, <- Hd.
    rewrite createTestsDir_exists by (rewrite Hw1; exact Hdir).
    reflexivity.
  - rewrite Hw1. cbn [write_file files]. apply map_eq. intros k.
    rewrite !lookup_insert. repeat case_decide; congruence.
  - cbn [write_file files].
    rewrite lookup_insert_ne by congruence. apply lookup_insert_eq.
  - cbn [write_file files]. apply lookup_insert_eq.
Qed.

(** C10: after a fulfilled run the last line of the fixture module and of
    the test module is the empty line, so the text written to each of the
    two files ends with a line break. *)
Theorem C10_emitted_texts_end_with_newline :
  forall (argv2 : option string) (w w' : world) (d : data),
    run argv2 w = (w', Fulfilled d) ->
    last (testCasesContent d) = Some "" /\
    last (testContent d) = Some "" /\
    files w' !! testCasesFile d = Some (Js.join nl (testCasesContent d)) /\
    files w' !! testFile d = Some (Js.join nl (testContent d)) /\
    last_char (Js.join nl (testCasesContent d)) = Some (ascii_of_nat 10) /\
    last_char (Js.join nl (testContent d)) = Some (ascii_of_nat 10).
Proof.
  intros argv2 w w' d Hrun.
  pose proof (scaffold_fulfilled_distinct_files _ _ _ _ Hrun) as Hne.
  destruct (scaffold_fulfilled_inv _ _ _ _ Hrun)
    as (filepath & d0 & d1 & d2 & d3 & w2 & _ & _ & _ & _ & H3 & Hd & _ & Hw').
  destruct (generateTestCasesContent_inv _ _ H3) as (doc & _ & Hd3).
  assert (Hcases : testCasesContent d = fixture_lines d2 doc).
  { rewrite Hd, generateTestContent_cases, Hd3. reflexivity. }
  destruct (fixture_lines_last d2 doc) as (l1 & Hl1 & E1).
  destruct (generateTestContent_last d3) as (l2 & Hl2 & E2).
  rewrite <- Hd in E2. rewrite Hcases, E1, E2, !last_snoc.
  rewrite <- E1, <- Hcases, <- E2.
  split; [reflexivity|]. split; [reflexivity|].
  split; [|split; [|split]].
  - rewrite Hw'. cbn [write_file files].
    rewrite lookup_insert_ne by congruence. apply lookup_insert_eq.
  - rewrite Hw'. cbn [write_file files]. apply lookup_insert_eq.
  - rewrite Hcases, E1. now apply join_ends_with_newline.
  - rewrite E2. now apply join_ends_with_newline.
Qed.

End PipelineProperties.

(** ** The properties on the sample component *)

Example sample_fixture_text :
  Js.join nl (testCasesContent sample_fixture)
  = Js.join nl [
      "import Immutable from 'immutable';";
      "import safeSpy from '../../test/safe_spy';";
      "import { UserCard } from '../user_card'";
      "";
      "export const base = {";
      "  description: 'base',";
      "  component: UserCard,";
      "  props: {";
      "    name: ''";
      "  }";
      "}";
      "";
      "export const active = {";
      "  description: 'active optional prop',";
      "  component: UserCard,";
      "  props: {";
      "    name: '',";
      "    active: true";
      "  }";
      "};";
      "" ].
Proof. vm_compute. reflexivity. Qed.

Example safeSpyPrefix_examples :
  safeSpyPrefix "components/__tests__" = "../.." /\
  safeSpyPrefix "src/ui/__tests__" = "../../.." /\
  safeSpyPrefix "/__tests__" = "./..".
Proof. repeat split. Qed.

Lemma C2_base_lines_witness :
  getPropDefaults (sample_data sample_doc) = inr sample_classified /\
  generateTestCasesContent sample_classified = inr sample_fixture /\
  requiredProps sample_fixture <> [] /\
  exists base others,
    scenarios (testCasesContent sample_fixture) = base :: others /\
    head base = Some (header_of "base") /\
    props_block base
    = imap (spec_base_line (length (requiredProps sample_fixture)))
        (requiredProps sample_fixture).
Proof.
  split; [vm_compute; reflexivity|].
  split; [vm_compute; reflexivity|].
  split; [vm_compute; discriminate|].
  apply (C2_base_lines_of_required_props (sample_data sample_doc) sample_classified
           sample_fixture);
    [vm_compute; reflexivity | vm_compute; reflexivity | vm_compute; discriminate].
Defined.

Lemma C4_scenarios_witness :
  getPropDefaults (sample_data sample_doc) = inr sample_classified /\
  generateTestCasesContent sample_classified = inr sample_fixture /\
  length (scenarios (testCasesContent sample_fixture))
  = (1 + length (optionalProps sample_fixture))%nat.
Proof.
  split; [vm_compute; reflexivity|].
  split; [vm_compute; reflexivity|].
  apply (C4_scenario_count_and_required_props (sample_data sample_doc) sample_classified
           sample_fixture);
    vm_compute; reflexivity.
Defined.

Lemma C7_no_props_witness :
  component (sample_data sample_empty_doc) = Some sample_empty_doc /\
  default [] (props sample_empty_doc) = [] /\
  exists d1 d2,
    getPropDefaults (sample_data sample_empty_doc) = inr d1 /\
    generateTestCasesContent d1 = inr d2 /\
    scenarios (testCasesContent d2)
    = [ [ "export const base = {";
          "  description: 'base',";
          "  component: UserCard,";
          "  props: {} // could not find prop type declarations";
          "}";
          "" ] ].
Proof.
  split; [reflexivity|]. split; [reflexivity|].
  apply (C7_no_declared_props (sample_data sample_empty_doc) sample_empty_doc);
    reflexivity.
Defined.

Lemma C8_safe_spy_witness :
  generateTestCasesContent sample_classified = inr sample_fixture /\
  testCasesContent sample_fixture !! 1%nat
  = Some "import safeSpy from '../../test/safe_spy';" /\
  count_dotdot (safeSpyPrefix "components/__tests__") = 2%nat.
Proof.
  split; [vm_compute; reflexivity|].
  destruct (C8_safe_spy_prefix_depth sample_classified sample_fixture) as (H1 & _ & H3);
    [vm_compute; reflexivity|].
  split; [exact H1 | exact H3].
Defined.

Lemma C3_ambiguous_witness :
  files (sample_world "two") !! sample_path = Some "two" /\
  sample_parse "two" = None /\
  sample_parse_all "two" = Some [sample_doc; sample_empty_doc] /\
  scaffold sample_path_parse sample_parse sample_parse_all (Some sample_path)
    (sample_world "two")
  = (sample_world "two", Rejected (Message msg_multiple)) /\
  files (main sample_path_parse sample_parse sample_parse_all (Some sample_path)
           (sample_world "two"))
  = files (sample_world "two").
Proof.
  split; [vm_compute; reflexivity|].
  split; [reflexivity|]. split; [reflexivity|].
  destruct (C3_ambiguous_component_aborts sample_path_parse sample_parse sample_parse_all
              sample_path "two" [sample_doc; sample_empty_doc] (sample_world "two"))
    as (_ & Hrun & _ & Hfiles & _);
    [reflexivity | vm_compute; reflexivity | reflexivity | reflexivity | simpl; lia |].
  split; [exact Hrun | exact Hfiles].
Defined.

Lemma C9_second_run_witness :
  files (sample_world "direct") !! sample_path = Some "direct" /\
  sample_run = (fst sample_run, Fulfilled sample_result) /\
  files (fst sample_run) !! sample_path = Some "direct" /\
  exists w2,
    scaffold sample_path_parse sample_parse sample_parse_all (Some sample_path)
      (fst sample_run)
    = (w2, Fulfilled sample_result) /\
    files w2 = files (fst sample_run) /\
    files w2 !! testCasesFile sample_result
    = Some (Js.join nl (testCasesContent sample_result)) /\
    files w2 !! testFile sample_result
    = Some (Js.join nl (testContent sample_result)).
Proof.
  split; [vm_compute; reflexivity|].
  split; [vm_compute; reflexivity|].
  split; [vm_compute; reflexivity|].
  apply (C9_second_run_same_texts sample_path_parse sample_parse sample_parse_all
           sample_path "direct" (sample_world "direct") (fst sample_run) sample_result);
    vm_compute; reflexivity.
Defined.

Lemma C10_newline_witness :
  sample_run = (fst sample_run, Fulfilled sample_result) /\
  last (testCasesContent sample_result) = Some "" /\
  last_char (Js.join nl (testCasesContent sample_result)) = Some (ascii_of_nat 10) /\
  last_char (Js.join nl (testContent sample_result)) = Some (ascii_of_nat 10).
Proof.
  split; [vm_compute; reflexivity|].
  destruct (C10_emitted_texts_end_with_newline sample_path_parse sample_parse
              sample_parse_all (Some sample_path) (sample_world "direct")
              (fst sample_run) sample_result)
    as (H1 & _ & _ & _ & H5 & H6);
    [vm_compute; reflexivity|].
  split; [exact H1|]. split; [exact H5 | exact H6].
Defined.

(** * Further properties of the code *)

(** ** The classification table *)




(** ** The Property Classifier on every schema *)

Lemma classify_inv (prop : string) (value : propDescriptor) (c : classified) :
  classify prop value = inr c ->
  exists type_name req msg,
    deduce value = inr (type_name, req, msg) /\
    c = {| name := prop; required := req;
           defaultValue := lookup_default type_name; message := msg |}.
Proof.
  unfold classify. destruct (deduce value) as [e|[[type_name req] msg]]; [discriminate|].
  intros H. injection H as <-. eauto.
Qed.

Lemma classify_all_Forall2 (entries : list (string * propDescriptor)) :
  forall cs, classify_all entries = inr cs ->
    Forall2 (fun entry c => classify (fst entry) (snd entry) = inr c) entries cs.
Proof.
  induction entries as [|[prop value] entries IH]; intros cs H; simpl in H.
  - injection H as <-. constructor.
  - destruct (classify prop value) as [e|c] eqn:Hc; [discriminate|].
    destruct (classify_all entries) as [e|cs'] eqn:Hcs; [discriminate|].
    injection H as <-. constructor; [exact Hc | now apply IH].
Qed.

(** The classifier keeps the props' names and their order. *)
Theorem classify_all_names (entries : list (string * propDescriptor)) (cs : list classified) :
  classify_all entries = inr cs -> map name cs = map fst entries.
Proof.
  intros H. apply classify_all_Forall2 in H.
  induction H as [|[prop value] c entries cs Hc _ IH]; [reflexivity|].
  cbn [map fst]. rewrite IH. f_equal.
  destruct (classify_inv _ _ _ Hc) as (t & r & m & _ & ->). reflexivity.
Qed.

Lemma classify_all_readable (entries : list (string * propDescriptor)) :
  (exists cs, classify_all entries = inr cs)
  <-> forallb (fun entry => readable (snd entry)) entries = true.
Proof.
  induction entries as [|[prop value] entries IH]; cbn [classify_all forallb snd].
  - split; [reflexivity | eauto].
  - assert (Hone : (exists c, classify prop value = inr c) <-> readable value = true).
    { unfold classify, deduce, readable.
      destruct (prop_flowType value) as [ft|].
      - destruct (decide (flow_name ft = "union")).
        + destruct (flow_elements ft) as [[|first rest]|];
            split; try discriminate; eauto; intros [c Hc]; discriminate Hc.
        + split; eauto.
      - destruct (prop_type value) as [ty|].
        + split; [reflexivity|]. intros _.
          destruct (raw ty) as [r|]; [destruct (Js.is_empty r)|]; eauto.
        + split; [intros [c Hc]; discriminate Hc | discriminate]. }
    rewrite andb_true_iff, <- IH, <- Hone. split.
    + intros [cs H].
      destruct (classify prop value) as [e|c]; [discriminate|].
      destruct (classify_all entries) as [e|cs']; [discriminate|]. eauto.
    + intros [[c Hc] [cs Hcs]]. rewrite Hc, Hcs. eauto.
Qed.

(** The loop throws exactly on a descriptor that is not [readable]. *)
Theorem classify_all_succeeds_iff (entries : list (string * propDescriptor)) :
  (exists cs, classify_all entries = inr cs)
  <-> forallb (fun entry => readable (snd entry)) entries = true.
Proof. exact (classify_all_readable entries). Qed.


(** A diagnostic is attached only to a prop without usable type information,
    and such a prop is left with [required] undefined and the value [''']. *)
Theorem classify_all_diagnostics (entries : list (string * propDescriptor))
    (cs : list classified) :
  classify_all entries = inr cs ->
  Forall (fun c =>
            (message c = "" /\ exists b, required c = Js.JBool b) \/
            (message c = "Could not deduce prop type" /\
             required c = Js.JUndefined /\ defaultValue c = Js.JStr "''")) cs.
Proof.
  intros H. apply classify_all_Forall2 in H.
  induction H as [|[prop value] c entries cs Hc _ IH]; constructor; [|exact IH].
  destruct (classify_inv _ _ _ Hc) as (t & r & m & Hd & ->). cbn [fst snd] in Hd.
  unfold deduce in Hd.
  destruct (prop_flowType value) as [ft|].
  - destruct (decide (flow_name ft = "union")).
    + destruct (flow_elements ft) as [[|first rest]|]; try discriminate.
      injection Hd as <- <- <-. left. eauto.
    + injection Hd as <- <- <-. left. eauto.
  - destruct (prop_type value) as [ty|]; [|discriminate].
    destruct (raw ty) as [s|]; [destruct (Js.is_empty s)|];
      injection Hd as <- <- <-; [right | left; eauto | right];
      (split; [reflexivity|]; split; [reflexivity | vm_compute; reflexivity]).
Qed.

(** ** PropTypes descriptor texts *)

Lemma match_here_cons_inv (a : Regex.atom) (re : list Regex.atom) (s m rest : string) :
  Regex.match_here (a :: re) s = Some (m, rest) ->
  exists x s' m',
    s = String x s' /\ Regex.atom_matches a x = true /\
    Regex.match_here re s' = Some (m', rest) /\ m = String x m'.
Proof.
  cbn [Regex.match_here]. destruct s as [|x s']; [discriminate|].
  destruct (Regex.atom_matches a x) eqn:Ha; [|discriminate].
  destruct (Regex.match_here re s') as [[m' rest']|] eqn:E; [|discriminate].
  intros H. injection H as <- <-. eauto 10.
Qed.

Lemma atom_matches_Chr (c x : ascii) : Regex.atom_matches (Regex.Chr c) x = true -> x = c.
Proof. cbn. destruct (decide (x = c)); [auto | discriminate]. Qed.

(** A match of [.isRequired] has an [R] as its fourth character. *)
Lemma match_isRequired_fourth (s m rest : string) :
  Regex.match_here re_isRequired s = Some (m, rest) ->
  exists a b c t, s = String a (String b (String c (String "R" t))).
Proof.
  unfold re_isRequired. cbn [Regex.literal]. intros H.
  apply match_here_cons_inv in H as (a & s1 & m1 & -> & _ & H & _).
  apply match_here_cons_inv in H as (b & s2 & m2 & -> & _ & H & _).
  apply match_here_cons_inv in H as (c & s3 & m3 & -> & _ & H & _).
  apply match_here_cons_inv in H as (r & s4 & m4 & -> & Hr & _ & _).
  apply atom_matches_Chr in Hr as ->. eauto.
Qed.

Lemma has_char_append (c : ascii) (a b : string) :
  has_char c (a +:+ b) = has_char c a || has_char c b.
Proof.
  induction a as [|x a IH]; [reflexivity|].
  cbn. rewrite IH. now rewrite orb_assoc.
Qed.

Lemma search_isRequired_none (s : string) :
  has_char "R" s = false -> Regex.search re_isRequired s = None.
Proof.
  induction s as [|x s IH]; intros HR.
  - reflexivity.
  - cbn [Regex.search].
    destruct (Regex.match_here re_isRequired (String x s)) as [[m rest]|] eqn:E.
    + apply match_isRequired_fourth in E as (a & b & c & t & E).
      rewrite E in HR. cbn in HR. rewrite !orb_true_r in HR. discriminate HR.
    + cbn in HR. apply orb_false_elim in HR as [_ HR]. now rewrite (IH HR).
Qed.

Lemma search_isRequired_suffix (X : string) :
  has_char "R" X = false ->
  Regex.search re_isRequired (X +:+ ".isRequired") = Some (X, ".isRequired", "").
Proof.
  induction X as [|x X IH]; intros HR.
  - reflexivity.
  - cbn in HR. apply orb_false_elim in HR as [_ HR].
    change (String x X +:+ ".isRequired") with (String x (X +:+ ".isRequired")).
    cbn [Regex.search].
    destruct (Regex.match_here re_isRequired (String x (X +:+ ".isRequired")))
      as [[m rest]|] eqn:E.
    + exfalso. apply match_isRequired_fourth in E as (a & b & c & t & E).
      destruct X as [|x1 [|x2 [|x3 X]]]; cbn in E; try discriminate E.
      injection E as _ _ _ ->. cbn in HR. rewrite !orb_true_r in HR. discriminate HR.
    + now rewrite (IH HR).
Qed.

(** For every type name without an [R], the text [PropTypes.T.isRequired]
    is read as type [T], required, and [PropTypes.T] as type [T], optional. *)
Theorem deduce_PropTypes_text :
  forall (T : string) (req : bool),
    has_char "R" T = false ->
    deduce {| prop_flowType := None;
              prop_type := Some {| raw := Some ("PropTypes." +:+ T +:+ ".isRequired") |};
              prop_required := req |}
    = inr (T, Js.JBool true, "") /\
    deduce {| prop_flowType := None;
              prop_type := Some {| raw := Some ("PropTypes." +:+ T) |};
              prop_required := req |}
    = inr (T, Js.JBool false, "").
Proof.
  intros T req HR.
  assert (HP : forall rest, has_char "R" rest = false ->
                 has_char "R" ("PropTypes." +:+ rest) = false).
  { intros rest H. rewrite has_char_append, H. reflexivity. }
  assert (Hstrip : forall rest,
             Regex.replace_first re_PropTypes (fun _ => "") ("PropTypes." +:+ rest) = rest).
  { intros rest. reflexivity. }
  unfold deduce. cbn [prop_flowType prop_type raw]. split.
  - change (Js.is_empty ("PropTypes." +:+ T +:+ ".isRequired")) with false. cbv iota.
    unfold strip_raw, Regex.test. rewrite Hstrip.
    unfold Regex.replace_first at 1. rewrite (search_isRequired_suffix T HR).
    rewrite <- (append_assoc "PropTypes." T ".isRequired").
    rewrite (search_isRequired_suffix _ (HP T HR)).
    now rewrite !append_nil_r.
  - change (Js.is_empty ("PropTypes." +:+ T)) with false. cbv iota.
    unfold strip_raw, Regex.test. rewrite Hstrip.
    unfold Regex.replace_first. rewrite (search_isRequired_none T HR).
    now rewrite (search_isRequired_none _ (HP T HR)).
Qed.

(** ** The test module in closed form *)

Lemma push_test_push_test (l1 l2 : list string) (d : data) :
  push_test l2 (push_test l1 d) = push_test (l1 ++ l2) d.
Proof. destruct d. unfold push_test, set_testContent. simpl. now rewrite <- app_assoc. Qed.

Lemma push_test_nil (d : data) : push_test [] d = d.
Proof. destruct d. unfold push_test, set_testContent. simpl. now rewrite app_nil_r. Qed.

Lemma test_block_push (len : nat) (d : data) (i : nat) (case_name : string) :
  test_block len d i case_name = push_test (test_block_lines len i case_name) d.
Proof.
  unfold test_block, test_block_lines, describe_of.
  destruct (i =? len - 1)%nat; rewrite !push_test_push_test; reflexivity.
Qed.

Lemma forEach_test_blocks (len : nat) (names : list string) :
  forall i d,
    forEach_indexed (test_block len) i names d
    = push_test (test_blocks_from len i names) d.
Proof.
  induction names as [|n names IH]; intros i d; cbn [forEach_indexed test_blocks_from].
  - now rewrite push_test_nil.
  - now rewrite test_block_push, IH, push_test_push_test.
Qed.

Lemma generateTestContent_closed_form (d : data) :
  generateTestContent d
  = set_testContent
      (test_header d
         ++ test_blocks_from (S (length (optionalProps d))) 0
              ("base" :: map name (optionalProps d))
         ++ ["});"; ""]) d.
Proof.
  destruct d. unfold generateTestContent.
  cbn [set_testContent componentName componentFilePath componentFilePathName
       testDirectory testCasesFile testFile component wrapped classifiedProps
       requiredProps optionalProps testCasesContent testContent].
  rewrite !push_test_push_test, forEach_test_blocks, !push_test_push_test.
  cbn [length]. rewrite length_map.
  unfold push_test, test_header.
  cbn [set_testContent componentName componentFilePath componentFilePathName
       testDirectory testCasesFile testFile component wrapped classifiedProps
       requiredProps optionalProps testCasesContent testContent app].
  reflexivity.
Qed.

Lemma filter_none {A : Type} (f : A -> bool) (l : list A) :
  Forall (fun x => f x = false) l -> List.filter f l = [].
Proof.
  induction 1 as [|x l Hx _ IH]; [reflexivity|].
  cbn [List.filter]. now rewrite Hx, IH.
Qed.

Lemma is_describe_describe_of (n : string) : is_describe (describe_of n) = true.
Proof. apply (starts_with_append "  describe(testCases."). Qed.

Lemma filter_describe_blocks (len : nat) (names : list string) :
  forall i, List.filter is_describe (test_blocks_from len i names) = map describe_of names.
Proof.
  induction names as [|n names IH]; intros i; [reflexivity|].
  cbn [test_blocks_from map]. rewrite List.filter_app, IH.
  unfold test_block_lines. rewrite List.filter_app.
  cbn [List.filter]. rewrite is_describe_describe_of.
  change (is_describe "    beforeEach(() => {") with false.
  change (is_describe ("      testCase = testCases." +:+ n +:+ ";")) with false.
  change (is_describe "    });") with false.
  change (is_describe "") with false.
  change (is_describe "    it('renders', () => {") with false.
  change (is_describe "      expect(toJson(wrapper)).toMatchSnapshot();") with false.
  change (is_describe "  });") with false.
  change (is_describe
            "      wrapper = shallow(React.createElement(testCase.component, testCase.props));")
    with false.
  cbv iota. destruct (i =? len - 1)%nat; reflexivity.
Qed.

(** The nested blocks of the test module are, in order, [base] and the
    optional props. *)
Lemma describes_of_test_module (d : data) :
  List.filter is_describe (testContent (generateTestContent d))
  = map describe_of ("base" :: map name (optionalProps d)).
Proof.
  rewrite generateTestContent_closed_form.
  destruct d. cbn [testContent set_testContent optionalProps].
  rewrite !List.filter_app, filter_describe_blocks.
  rewrite (filter_none is_describe (test_header _))
    by (repeat (constructor; [reflexivity|]); constructor).
  rewrite (filter_none is_describe ["});"; ""]) by (repeat constructor).
  cbn [app]. now rewrite app_nil_r.
Qed.

Lemma filter_export_plain (lines : list string) :
  plain lines -> List.filter is_export lines = [].
Proof.
  induction 1 as [|line lines Hline _ IH]; [reflexivity|].
  cbn [List.filter]. now rewrite Hline, IH.
Qed.

Lemma optional_lines_tail_plain (cn sfx : string) (reqs : list classified) (p : classified) :
  exists body, optional_lines cn sfx reqs p = header_of (name p) :: body /\ plain body.
Proof.
  eexists. split; [reflexivity|].
  repeat (constructor; [reflexivity|]).
  apply Forall_app. split; [apply required_lines_plain|].
  repeat (constructor; [reflexivity|]). constructor.
Qed.

Lemma exports_of_base_lines (cn sfx : string) (doc : componentDoc) (reqs : list classified) :
  List.filter is_export (base_lines cn sfx doc reqs) = [header_of "base"].
Proof.
  change (base_lines cn sfx doc reqs)
    with (["export const base = {"]
            ++ "  description: 'base'," :: ("  component: " +:+ cn +:+ sfx +:+ ",")
                 :: base_props_lines doc reqs ++ ["}"; ""]).
  rewrite List.filter_app, (filter_export_plain ("  description: 'base'," :: _));
    [reflexivity|].
  repeat (constructor; [reflexivity|]).
  apply Forall_app. split; [apply base_props_lines_plain | repeat constructor].
Qed.

Lemma exports_of_optional_lines (cn sfx : string) (reqs opts : list classified) :
  List.filter is_export (flat_map (optional_lines cn sfx reqs) opts)
  = map header_of (map name opts).
Proof.
  induction opts as [|p opts IH]; [reflexivity|].
  cbn [flat_map map]. rewrite List.filter_app, IH.
  destruct (optional_lines_tail_plain cn sfx reqs p) as (body & -> & Hbody).
  cbn [List.filter]. rewrite is_export_header, (filter_export_plain _ Hbody). reflexivity.
Qed.

Lemma exports_of_fixture_lines (d : data) (doc : componentDoc) :
  List.filter is_export (fixture_lines d doc)
  = map header_of ("base" :: map name (optional_of d)).
Proof.
  unfold fixture_lines. rewrite !List.filter_app.
  rewrite (filter_export_plain (import_lines _ _ _)) by (repeat constructor).
  rewrite exports_of_base_lines, exports_of_optional_lines. reflexivity.
Qed.

(** The two emitted modules agree: the test module has one nested block per
    scenario the fixture module exports, under the same names and in the
    same order. *)
Theorem test_blocks_match_exported_scenarios :
  forall d d' : data,
    generateTestCasesContent d = inr d' ->
    let names := "base" :: map name (optionalProps d') in
    List.filter is_export (testCasesContent (generateTestContent d')) = map header_of names /\
    List.filter is_describe (testContent (generateTestContent d')) = map describe_of names.
Proof.
  intros d d' H names. subst names. split; [|apply describes_of_test_module].
  rewrite generateTestContent_cases.
  destruct (generateTestCasesContent_inv _ _ H) as (doc & _ & ->).
  change (testCasesContent _) with (fixture_lines d doc).
  change (optionalProps _) with (optional_of d).
  apply exports_of_fixture_lines.
Qed.

Lemma test_blocks_witness :
  generateTestCasesContent sample_classified = inr sample_fixture /\
  List.filter is_describe (testContent (generateTestContent sample_fixture))
  = ["  describe(testCases.base.description, () => {";
     "  describe(testCases.active.description, () => {"].
Proof.
  split; [vm_compute; reflexivity|].
  apply (test_blocks_match_exported_scenarios sample_classified sample_fixture).
  vm_compute; reflexivity.
Defined.

(** ** The props of an optional scenario *)

Lemma props_block_optional_lines (cn sfx : string) (reqs : list classified) (p : classified) :
  props_block (optional_lines cn sfx reqs p)
  = required_lines false reqs
    ++ ["    " +:+ name p +:+ ": " +:+ Js.to_string (defaultValue p)
          +:+ spec_diagnostic_comment p].
Proof.
  unfold props_block, optional_lines, header_of, spec_diagnostic_comment.
  rewrite !lines_after_skip by reflexivity.
  rewrite lines_after_found.
  change (required_lines false reqs ++ [?own; "  }"; "};"; ""])
    with (required_lines false reqs ++ [own] ++ "  }" :: ["};"; ""]).
  rewrite app_assoc. apply lines_until_stop.
  apply Forall_app. split; [apply required_lines_not_closing|].
  repeat constructor.
Qed.

(** In the scenario of an optional prop every required prop has its line
    with a trailing comma, in order, and the last line sets the optional
    prop itself, without a comma and followed by its diagnostic, if any. *)
Theorem optional_scenarios_props :
  forall d0 d1 d2 : data,
    getPropDefaults d0 = inr d1 ->
    generateTestCasesContent d1 = inr d2 ->
    exists base blocks,
      scenarios (testCasesContent d2) = base :: blocks /\
      Forall2
        (fun p block =>
           head block = Some (header_of (name p)) /\
           props_block block
           = map (fun r => "    " +:+ name r +:+ ": " +:+ Js.to_string (defaultValue r) +:+ ",")
               (requiredProps d2)
             ++ ["    " +:+ name p +:+ ": " +:+ Js.to_string (defaultValue p)
                   +:+ spec_diagnostic_comment p])
        (optionalProps d2) blocks.
Proof.
  intros d0 d1 d2 H1 H2.
  destruct (getPropDefaults_inv _ _ H1) as (doc & cs & Hdoc & Hcs & ->).
  destruct (generateTestCasesContent_inv _ _ H2) as (doc' & _ & ->).
  change (requiredProps _) with (List.filter is_required cs).
  change (optionalProps _) with (List.filter (fun p => negb (is_required p)) cs).
  change (testCasesContent _)
    with (fixture_lines (set_classifiedProps cs d0) doc').
  rewrite scenarios_fixture_lines.
  change (required_of _) with (List.filter is_required cs).
  change (optional_of _) with (List.filter (fun p => negb (is_required p)) cs).
  eexists _, _. split; [reflexivity|].
  assert (Hreq : required_lines false (List.filter is_required cs)
                 = map (fun r => "    " +:+ name r +:+ ": "
                                   +:+ Js.to_string (defaultValue r) +:+ ",")
                     (List.filter is_required cs)).
  { unfold required_lines.
    rewrite <- (imap_const (fun r => "    " +:+ name r +:+ ": "
                                       +:+ Js.to_string (defaultValue r) +:+ ",")).
    apply imap_ext. intros i r Hr.
    assert (message r = "") as Hmsg.
    { apply list_elem_of_lookup_2, list_elem_of_In, filter_In in Hr as [Hin Hr].
      pose proof (classify_all_required_no_message _ _ Hcs) as Hall.
      rewrite Forall_forall in Hall. apply Hall; [|exact Hr].
      now apply list_elem_of_In. }
    unfold required_line, const. rewrite Hmsg. cbn [andb Js.truthy Js.is_empty negb].
    now rewrite append_nil_r. }
  induction (List.filter (fun p => negb (is_required p)) cs) as [|p opts IH];
    cbn [map]; constructor; [|exact IH].
  split; [reflexivity|].
  now rewrite props_block_optional_lines, Hreq.
Qed.

Lemma optional_scenarios_witness :
  getPropDefaults (sample_data sample_doc) = inr sample_classified /\
  generateTestCasesContent sample_classified = inr sample_fixture /\
  exists base blocks,
    scenarios (testCasesContent sample_fixture) = base :: blocks /\
    length blocks = 1%nat.
Proof.
  split; [vm_compute; reflexivity|].
  split; [vm_compute; reflexivity|].
  destruct (optional_scenarios_props (sample_data sample_doc) sample_classified sample_fixture)
    as (base & blocks & Hs & Hall); [vm_compute; reflexivity | vm_compute; reflexivity|].
  exists base, blocks. split; [exact Hs|].
  apply Forall2_length in Hall. rewrite <- Hall. vm_compute. reflexivity.
Defined.

(** ** What the Test Emitter leaves alone *)

Lemma only_testContent_refl (d : data) : only_testContent d d.
Proof. destruct d; reflexivity. Qed.

Lemma only_testContent_trans (d1 d2 d3 : data) :
  only_testContent d1 d2 -> only_testContent d2 d3 -> only_testContent d1 d3.
Proof. unfold only_testContent. intros H12 H23. rewrite H23, H12. destruct d1; reflexivity. Qed.

Lemma generateTestContent_only_testContent (d : data) :
  only_testContent d (generateTestContent d).
Proof.
  unfold only_testContent. rewrite generateTestContent_closed_form.
  destruct d; reflexivity.
Qed.

(** Every scenario block of the fixture module has the [component:] line. *)
Lemma scenarios_component_line (d : data) (doc : componentDoc) (block : list string) :
  block ∈ scenarios (fixture_lines d doc) -> component_line d ∈ block.
Proof.
  rewrite scenarios_fixture_lines. intros [-> | H]%elem_of_cons.
  - unfold base_lines, component_line. set_solver.
  - apply list_elem_of_In, in_map_iff in H as (p & <- & _).
    unfold optional_lines, component_line. set_solver.
Qed.

(** ** Every way a run can end *)

Section RunProperties.

Variable path_parse : string -> string * string.
Variable reactDocs_parse : string -> option componentDoc.
Variable reactDocs_parse_all : string -> option (list componentDoc).

#[local] Abbreviation getInfo := (getComponentInfo reactDocs_parse reactDocs_parse_all).
#[local] Abbreviation run := (scaffold path_parse reactDocs_parse reactDocs_parse_all).
#[local] Abbreviation run_main := (main path_parse reactDocs_parse reactDocs_parse_all).

Lemma resolve_settles (x : executor) : settled (resolve x) <> Pending.
Proof. destruct x as [o [| [] |e]]; cbn; discriminate. Qed.

Lemma getComponentInfo_settles (d : data) (w : world) : snd (getInfo d w) <> Pending.
Proof.
  unfold getComponentInfo.
  destruct (files w !! componentFilePath d) as [content|]; [|discriminate].
  cbn [snd]. destruct (reactDocs_parse content) as [doc|]; [apply resolve_settles|].
  destruct (reactDocs_parse_all content) as [res|]; [apply resolve_settles | discriminate].
Qed.

Lemma createTestsDir_settles (d : data) (w : world) : snd (createTestsDir d w) <> Pending.
Proof.
  unfold createTestsDir.
  destruct (decide (testDirectory d ∈ dirs w)); [apply resolve_settles|].
  destruct (decide (testDirectory d ∈ mkdir_denied w)); apply resolve_settles.
Qed.

Lemma createTestsDir_rejected (d : data) (w w' : world) (e : error) :
  createTestsDir d w = (w', Rejected e) -> w' = w.
Proof.
  unfold createTestsDir.
  destruct (decide (testDirectory d ∈ dirs w)); [cbn; congruence|].
  destruct (decide (testDirectory d ∈ mkdir_denied w)); cbn; [congruence | discriminate].
Qed.

Lemma createTestsDir_fulfilled_cases (d : data) (w : world) :
  (exists w', createTestsDir d w = (w', Fulfilled d))
  <-> testDirectory d ∈ dirs w \/ testDirectory d ∉ mkdir_denied w.
Proof.
  unfold createTestsDir.
  destruct (decide (testDirectory d ∈ dirs w)) as [Hin|Hout].
  - split; [auto | eauto].
  - destruct (decide (testDirectory d ∈ mkdir_denied w)) as [Hden|Hok].
    + split; [intros [w' H]; discriminate H | intros [?|?]; contradiction].
    + split; [auto | eauto].
Qed.

(** The test directory is no obstacle when it exists already (the error of
    [fs.mkdir] comes after the promise is resolved) and is created when it
    does not; the stage fails only when a missing directory cannot be
    created. *)
Theorem createTestsDir_fulfilled_iff (d : data) (w : world) :
  (exists w', createTestsDir d w = (w', Fulfilled d))
  <-> testDirectory d ∈ dirs w \/ testDirectory d ∉ mkdir_denied w.
Proof. exact (createTestsDir_fulfilled_cases d w). Qed.

Lemma createTestsDir_frame (d d' : data) (w w' : world) :
  createTestsDir d w = (w', Fulfilled d') ->
  files w' = files w /\ dirs w' = {[testDirectory d]} ∪ dirs w /\
  mkdir_denied w' = mkdir_denied w /\ console w' = console w.
Proof.
  unfold createTestsDir.
  destruct (decide (testDirectory d ∈ dirs w)) as [Hin|Hout].
  - cbn. intros [= <- _]. repeat split.
    apply set_eq. intros x. rewrite elem_of_union, elem_of_singleton.
    split; [auto | intros [-> | ?]; assumption].
  - destruct (decide (testDirectory d ∈ mkdir_denied w)); cbn; intros H.
    + discriminate H.
    + injection H as <- _. repeat split.
Qed.

(** A run always settles: no stage leaves its promise pending. *)
Lemma scaffold_settles (argv2 : option string) (w : world) : snd (run argv2 w) <> Pending.
Proof.
  rewrite scaffold_stages.
  destruct (getFileAndComponentName path_parse argv2) as [|d0|e] eqn:H0.
  - unfold getFileAndComponentName in H0.
    destruct argv2 as [filepath|]; [|discriminate].
    destruct (Js.is_empty filepath); [discriminate|].
    destruct (path_parse filepath); discriminate.
  - pose proof (getComponentInfo_settles d0 w) as H1.
    destruct (getInfo d0 w) as [w1 [|d1|e]]; [contradiction| |discriminate].
    destruct (getPropDefaults d1) as [e|d2]; [discriminate|].
    destruct (generateTestCasesContent d2) as [e|d3]; [discriminate|].
    pose proof (createTestsDir_settles (generateTestContent d3) w1) as H4.
    destruct (createTestsDir (generateTestContent d3) w1) as [w2 [|d4|e]];
      [contradiction|discriminate|discriminate].
  - discriminate.
Qed.

Lemma scaffold_rejected_world :
  forall (argv2 : option string) (w w' : world) (e : error),
    run argv2 w = (w', Rejected e) -> w' = w.
Proof.
  intros argv2 w w' e. rewrite scaffold_stages.
  destruct (getFileAndComponentName path_parse argv2) as [|d0|e0]; try congruence.
  pose proof (getComponentInfo_world reactDocs_parse reactDocs_parse_all d0 w) as Hw.
  destruct (getInfo d0 w) as [w1 [|d1|e1]]; cbn in Hw; subst w1; try congruence.
  destruct (getPropDefaults d1) as [e2|d2]; [congruence|].
  destruct (generateTestCasesContent d2) as [e3|d3]; [congruence|].
  destruct (createTestsDir (generateTestContent d3) w) as [w2 [|d4|e4]] eqn:H4;
    try discriminate.
  intros H. injection H as <- _. now apply createTestsDir_rejected in H4.
Qed.

(** A rejected run has changed nothing: no file, no directory, no console
    line. *)
Theorem scaffold_rejected_unchanged :
  forall (argv2 : option string) (w w' : world) (e : error),
    run argv2 w = (w', Rejected e) -> w' = w.
Proof. exact scaffold_rejected_world. Qed.

Lemma scaffold_fulfilled_world :
  forall (argv2 : option string) (w w' : world) (d : data),
    run argv2 w = (w', Fulfilled d) ->
    files w'
    = <[testFile d := Js.join nl (testContent d)]>
        (<[testCasesFile d := Js.join nl (testCasesContent d)]> (files w)) /\
    (forall path, path <> testCasesFile d -> path <> testFile d ->
                  files w' !! path = files w !! path) /\
    dirs w' = {[testDirectory d]} ∪ dirs w /\
    console w' = console w.
Proof.
  intros argv2 w w' d Hrun.
  destruct (scaffold_fulfilled_inv _ _ _ _ _ _ _ Hrun)
    as (filepath & d0 & d1 & d2 & d3 & w2 & _ & _ & _ & _ & _ & _ & H4 & ->).
  destruct (createTestsDir_frame _ _ _ _ H4) as (Hfiles & Hdirs & _ & Hconsole).
  cbn [write_file files dirs console]. rewrite Hfiles.
  split; [reflexivity|]. split; [|split; assumption].
  intros path H1 H2. now rewrite !lookup_insert_ne by congruence.
Qed.


(** Every run settles and prints exactly one message, wrapped in line
    breaks: the list of the generated files or the reason of the failure. *)
Theorem main_prints_one_message :
  forall (argv2 : option string) (w : world),
    exists text,
      console (run_main argv2 w) = console w ++ [nl +:+ text +:+ nl] /\
      match snd (run argv2 w) with
      | Fulfilled d =>
          text = Js.join nl
                   [ "Successfully created the following test files for "
                       +:+ componentName d +:+ ":";
                     "  * " +:+ testCasesFile d;
                     "  * " +:+ testFile d ]
      | Rejected e => text = error_text e
      | Pending => False
      end.
Proof.
  intros argv2 w. unfold main, io_catch, io_then.
  change (scaffold path_parse reactDocs_parse reactDocs_parse_all argv2 w)
    with (run argv2 w).
  pose proof (scaffold_settles argv2 w) as Hsettles.
  destruct (run argv2 w) as [w' [|d|e]] eqn:Hrun; cbn [snd] in *.
  - contradiction.
  - destruct (scaffold_fulfilled_world _ _ _ _ Hrun) as (_ & _ & _ & Hconsole).
    eexists. split; [|reflexivity].
    unfold printMessage, formatMessage. cbn [fst console console_log].
    now rewrite Hconsole.
  - apply scaffold_rejected_world in Hrun as ->.
    eexists. split; [|reflexivity]. reflexivity.
Qed.

(** Without a file path, or with an empty one, the script only prints that
    the argument is required. *)
Theorem main_without_filepath :
  forall w : world,
    run_main None w = console_log (nl +:+ msg_no_filepath +:+ nl) w /\
    run_main (Some "") w = console_log (nl +:+ msg_no_filepath +:+ nl) w.
Proof. intros w. split; reflexivity. Qed.

End RunProperties.

(** ** How the component was found *)

Section ResolverProperties.

Variable path_parse : string -> string * string.
Variable reactDocs_parse : string -> option componentDoc.
Variable reactDocs_parse_all : string -> option (list componentDoc).

#[local] Abbreviation getInfo := (getComponentInfo reactDocs_parse reactDocs_parse_all).
#[local] Abbreviation run := (scaffold path_parse reactDocs_parse reactDocs_parse_all).
#[local] Abbreviation run_main := (main path_parse reactDocs_parse reactDocs_parse_all).

Lemma getFileAndComponentName_fresh (argv2 : option string) (d0 : data) :
  getFileAndComponentName path_parse argv2 = Fulfilled d0 ->
  wrapped d0 = false /\ component d0 = None.
Proof.
  unfold getFileAndComponentName. intros H.
  destruct argv2 as [filepath|]; [|discriminate].
  destruct (Js.is_empty filepath); [discriminate|].
  destruct (path_parse filepath) as [dir name0].
  injection H as <-. split; reflexivity.
Qed.

(** What a fulfilled run keeps of the [data] object that [getComponentInfo]
    handed on. *)
Lemma scaffold_fulfilled_component (argv2 : option string) (w w' : world) (d : data) :
  run argv2 w = (w', Fulfilled d) ->
  exists d0 d1,
    getFileAndComponentName path_parse argv2 = Fulfilled d0 /\
    getInfo d0 w = (w, Fulfilled d1) /\
    wrapped d = wrapped d1 /\ component d = component d1 /\
    componentName d = componentName d1 /\
    forall block, block ∈ scenarios (testCasesContent d) -> component_line d ∈ block.
Proof.
  intros Hrun.
  destruct (scaffold_fulfilled_inv _ _ _ _ _ _ _ Hrun)
    as (filepath & d0 & d1 & d2 & d3 & w2 & _ & H0 & H1 & H2 & H3 & Hd & _).
  exists d0, d1. split; [exact H0|]. split; [exact H1|].
  destruct (getPropDefaults_inv _ _ H2) as (doc & cs & _ & _ & ->).
  destruct (generateTestCasesContent_inv _ _ H3) as (doc' & _ & ->).
  pose proof (generateTestContent_only_testContent
                (set_testCasesContent (fixture_lines (set_classifiedProps cs d1) doc')
                   (set_optionalProps (optional_of (set_classifiedProps cs d1))
                      (set_requiredProps (required_of (set_classifiedProps cs d1))
                         (set_classifiedProps cs d1))))) as Honly.
  rewrite <- Hd in Honly. unfold only_testContent in Honly. rewrite Honly.
  repeat split. intros block Hblock.
  apply (scenarios_component_line (set_classifiedProps cs d1) doc' block Hblock).
Qed.

(** A component found only through the search for all definitions is marked
    as wrapped, and every scenario of the fixture module refers to it through
    [.WrappedComponent]. *)
Theorem wrapped_component_accessor :
  forall (filepath content : string) (doc : componentDoc) (w w' : world) (d : data),
    files w !! filepath = Some content ->
    reactDocs_parse content = None ->
    reactDocs_parse_all content = Some [doc] ->
    run (Some filepath) w = (w', Fulfilled d) ->
    wrapped d = true /\ component d = Some doc /\
    forall block, block ∈ scenarios (testCasesContent d) ->
      ("  component: " +:+ componentName d +:+ ".WrappedComponent,") ∈ block.
Proof.
  intros filepath content doc w w' d Hfile Hdirect Hall Hrun.
  destruct (scaffold_fulfilled_component _ _ _ _ Hrun)
    as (d0 & d1 & H0 & H1 & Hw & Hc & Hn & Hblocks).
  destruct (getFileAndComponentName_inv _ _ _ H0) as (f & [= <-] & Hpath & _).
  unfold getComponentInfo in H1. rewrite Hpath, Hfile, Hdirect, Hall in H1.
  cbn in H1. injection H1 as <-. cbn in Hw, Hc.
  split; [exact Hw|]. split; [exact Hc|].
  intros block Hblock. apply Hblocks in Hblock.
  unfold component_line, wrapped_suffix in Hblock. now rewrite Hw in Hblock.
Qed.

(** A component that the direct parse finds is not marked as wrapped, whatever
    the search for all definitions would return, and every scenario refers to
    it by its plain name. *)
Theorem direct_component_reference :
  forall (filepath content : string) (doc : componentDoc) (w w' : world) (d : data),
    files w !! filepath = Some content ->
    reactDocs_parse content = Some doc ->
    run (Some filepath) w = (w', Fulfilled d) ->
    wrapped d = false /\ component d = Some doc /\
    forall block, block ∈ scenarios (testCasesContent d) ->
      ("  component: " +:+ componentName d +:+ ",") ∈ block.
Proof.
  intros filepath content doc w w' d Hfile Hdirect Hrun.
  destruct (scaffold_fulfilled_component _ _ _ _ Hrun)
    as (d0 & d1 & H0 & H1 & Hw & Hc & Hn & Hblocks).
  destruct (getFileAndComponentName_inv _ _ _ H0) as (f & [= <-] & Hpath & _).
  destruct (getFileAndComponentName_fresh _ _ H0) as (Hfresh & _).
  unfold getComponentInfo in H1. rewrite Hpath, Hfile, Hdirect in H1.
  cbn in H1. injection H1 as <-. cbn in Hw, Hc. rewrite Hfresh in Hw.
  split; [exact Hw|]. split; [exact Hc|].
  intros block Hblock. apply Hblocks in Hblock.
  unfold component_line, wrapped_suffix in Hblock. now rewrite Hw in Hblock.
Qed.

(** When both parses throw, the run ends with the failed-to-analyze message
    and nothing is written. *)
Theorem unparseable_component_aborts :
  forall (filepath content : string) (w : world),
    Js.is_empty filepath = false ->
    files w !! filepath = Some content ->
    reactDocs_parse content = None ->
    reactDocs_parse_all content = None ->
    run (Some filepath) w = (w, Rejected (Message msg_failed)) /\
    run_main (Some filepath) w = console_log (nl +:+ msg_failed +:+ nl) w.
Proof.
  intros filepath content w Hpath Hfile Hdirect Hall.
  assert (Hrun : run (Some filepath) w = (w, Rejected (Message msg_failed))).
  { rewrite scaffold_stages. unfold getFileAndComponentName. rewrite Hpath.
    destruct (path_parse filepath) as [dir name0].
    unfold getComponentInfo. cbn [componentFilePath].
    rewrite Hfile, Hdirect, Hall. reflexivity. }
  split; [exact Hrun|].
  unfold main, io_catch, io_then.
  change (scaffold path_parse reactDocs_parse reactDocs_parse_all (Some filepath) w)
    with (run (Some filepath) w).
  rewrite Hrun. reflexivity.
Qed.

(** When the search for all definitions returns an empty list, no diagnostic
    of [getComponentInfo] is raised: its promise is fulfilled with
    [data.component] undefined and [data.wrapped] set, and the run is rejected
    by the TypeError that [getPropDefaults] throws; nothing is written. *)
Theorem no_definition_found_throws :
  forall (filepath content : string) (w : world),
    Js.is_empty filepath = false ->
    files w !! filepath = Some content ->
    reactDocs_parse content = None ->
    reactDocs_parse_all content = Some [] ->
    (forall d0, componentFilePath d0 = filepath ->
                getInfo d0 w = (w, Fulfilled (set_wrapped true (set_component None d0)))) /\
    exists text, run (Some filepath) w = (w, Rejected (TypeError text)).
Proof.
  intros filepath content w Hpath Hfile Hdirect Hall.
  assert (Hinfo : forall d0, componentFilePath d0 = filepath ->
            getInfo d0 w = (w, Fulfilled (set_wrapped true (set_component None d0)))).
  { intros d0 Hd0. unfold getComponentInfo. rewrite Hd0, Hfile, Hdirect, Hall.
    reflexivity. }
  split; [exact Hinfo|]. eexists.
  rewrite scaffold_stages. unfold getFileAndComponentName. rewrite Hpath.
  destruct (path_parse filepath) as [dir name0].
  rewrite Hinfo by reflexivity. reflexivity.
Qed.

End ResolverProperties.

Lemma wrapped_component_witness :
  files (sample_world "one") !! sample_path = Some "one" /\
  sample_parse "one" = None /\
  sample_parse_all_one "one" = Some [sample_doc] /\
  sample_run_wrapped = (fst sample_run_wrapped, Fulfilled sample_result_wrapped) /\
  wrapped sample_result_wrapped = true.
Proof.
  split; [vm_compute; reflexivity|].
  split; [reflexivity|]. split; [reflexivity|].
  split; [vm_compute; reflexivity|].
  apply (wrapped_component_accessor sample_path_parse sample_parse sample_parse_all_one
           sample_path "one" sample_doc (sample_world "one") (fst sample_run_wrapped)
           sample_result_wrapped);
    vm_compute; reflexivity.
Defined.

Lemma direct_component_witness :
  files (sample_world "direct") !! sample_path = Some "direct" /\
  sample_parse "direct" = Some sample_doc /\
  sample_run = (fst sample_run, Fulfilled sample_result) /\
  wrapped sample_result = false.
Proof.
  split; [vm_compute; reflexivity|]. split; [reflexivity|].
  split; [vm_compute; reflexivity|].
  apply (direct_component_reference sample_path_parse sample_parse sample_parse_all
           sample_path "direct" sample_doc (sample_world "direct") (fst sample_run)
           sample_result);
    vm_compute; reflexivity.
Defined.

Lemma unparseable_component_witness :
  files (sample_world "other") !! sample_path = Some "other" /\
  scaffold sample_path_parse sample_parse sample_parse_all (Some sample_path)
    (sample_world "other")
  = (sample_world "other", Rejected (Message msg_failed)).
Proof.
  split; [vm_compute; reflexivity|].
  apply (unparseable_component_aborts sample_path_parse sample_parse sample_parse_all
           sample_path "other" (sample_world "other"));
    first [reflexivity | vm_compute; reflexivity].
Defined.

Lemma no_definition_found_witness :
  files (sample_world "none") !! sample_path = Some "none" /\
  exists text,
    scaffold sample_path_parse sample_parse sample_parse_all_one (Some sample_path)
      (sample_world "none")
    = (sample_world "none", Rejected (TypeError text)).
Proof.
  split; [vm_compute; reflexivity|].
  apply (no_definition_found_throws sample_path_parse sample_parse sample_parse_all_one
           sample_path "none" (sample_world "none"));
    first [reflexivity | vm_compute; reflexivity].
Defined.

Lemma scaffold_rejected_witness :
  scaffold sample_path_parse sample_parse sample_parse_all (Some sample_path)
    (sample_world "two")
  = (sample_world "two", Rejected (Message msg_multiple)) /\
  sample_world "two" = sample_world "two".
Proof.
  split; [vm_compute; reflexivity|].
  apply (scaffold_rejected_unchanged sample_path_parse sample_parse sample_parse_all
           (Some sample_path) (sample_world "two") (sample_world "two")
           (Message msg_multiple)).
  vm_compute; reflexivity.
Defined.


(** ** The derived component name *)

Lemma is_lower_to_upper (c : ascii) :
  Js.is_lower c = true ->
  Js.is_lower (Js.to_upper c) = false /\ Js.to_upper c <> "_"%char.
Proof.
  destruct c as [[] [] [] [] [] [] [] []]; intros H;
    first [discriminate H | split; [reflexivity | discriminate]].
Qed.

Lemma replace_all_fuel_empty (fuel : nat) (a : Regex.atom) (re : list Regex.atom)
    (f : string -> string) :
  Regex.replace_all_fuel fuel (a :: re) f "" = "".
Proof. destruct fuel; reflexivity. Qed.

Lemma replace_all_camel_case (fuel : nat) :
  forall s, (String.length s < fuel)%nat ->
    Regex.replace_all_fuel fuel [Regex.Chr "_"; Regex.Lower] (upper_at 1) s = camel_case s.
Proof.
  induction fuel as [|fuel IH]; intros s Hfuel; [lia|].
  destruct s as [|a [|b rest]].
  - reflexivity.
  - cbn. destruct (decide (a = "_"%char)); cbn; now rewrite replace_all_fuel_empty.
  - cbn [Regex.replace_all_fuel Regex.match_here Regex.atom_matches camel_case].
    cbn [String.length] in Hfuel.
    destruct (decide (a = "_"%char)); cbn [andb].
    + destruct (Js.is_lower b); cbn.
      * f_equal. apply IH. lia.
      * f_equal. apply IH. cbn [String.length]. lia.
    + cbn. f_equal. apply IH. cbn [String.length]. lia.
Qed.

Lemma camel_case_starts_lower (s : string) :
  starts_lower (camel_case s) = true -> starts_lower s = true.
Proof.
  destruct s as [|a [|b rest]]; cbn [camel_case]; try (intros H; exact H).
  destruct (decide (a = "_"%char)) as [->|]; cbn [andb]; [|intros H; exact H].
  destruct (Js.is_lower b) eqn:Hb; [|intros H; exact H].
  cbn [starts_lower]. destruct (is_lower_to_upper b Hb) as [-> _]. discriminate.
Qed.

Lemma camel_case_cons (a b : ascii) (rest : string) :
  camel_case (String a (String b rest))
  = if (if decide (a = "_"%char) then true else false) && Js.is_lower b
    then String (Js.to_upper b) (camel_case rest)
    else String a (camel_case (String b rest)).
Proof. reflexivity. Qed.

Lemma has_snake_boundary_cons (a b : ascii) (t : string) :
  has_snake_boundary (String a (String b t))
  = (if decide (a = "_"%char) then true else false) && Js.is_lower b
    || has_snake_boundary (String b t).
Proof. reflexivity. Qed.

Lemma camel_case_no_boundary (n : nat) :
  forall s, (String.length s <= n)%nat -> has_snake_boundary (camel_case s) = false.
Proof.
  induction n as [|n IH]; intros s Hlen.
  - destruct s; [reflexivity | cbn in Hlen; lia].
  - destruct s as [|a [|b rest]]; [reflexivity | reflexivity |].
    cbn [String.length] in Hlen. rewrite camel_case_cons.
    destruct ((if decide (a = "_"%char) then true else false) && Js.is_lower b) eqn:Hcond.
    + apply andb_prop in Hcond as [_ Hb].
      destruct (is_lower_to_upper b Hb) as [_ Hne].
      pose proof (IH rest ltac:(lia)) as Hrest.
      destruct (camel_case rest) as [|c t]; [reflexivity|].
      rewrite has_snake_boundary_cons, Hrest.
      destruct (decide (Js.to_upper b = "_"%char)); [contradiction | reflexivity].
    + pose proof (IH (String b rest) ltac:(cbn [String.length]; lia)) as Htail.
      pose proof (camel_case_starts_lower (String b rest)) as Hfirst.
      destruct (camel_case (String b rest)) as [|c t]; [reflexivity|].
      rewrite has_snake_boundary_cons, Htail, orb_false_r.
      destruct (decide (a = "_"%char)); [|reflexivity].
      cbn [andb] in Hcond |- *. cbn [starts_lower] in Hfirst.
      destruct (Js.is_lower c) eqn:Hc; [|reflexivity].
      rewrite (Hfirst eq_refl) in Hcond. discriminate Hcond.
Qed.

Lemma camel_case_fixed (n : nat) :
  forall s, (String.length s <= n)%nat -> has_snake_boundary s = false -> camel_case s = s.
Proof.
  induction n as [|n IH]; intros s Hlen Hs.
  - destruct s; [reflexivity | cbn in Hlen; lia].
  - destruct s as [|a [|b rest]]; [reflexivity | reflexivity |].
    cbn [String.length] in Hlen. rewrite has_snake_boundary_cons in Hs.
    apply orb_false_elim in Hs as [Hcond Htail].
    rewrite camel_case_cons, Hcond. f_equal.
    apply IH; [cbn [String.length]; lia | exact Htail].
Qed.

Lemma derive_componentName_camel (n : string) :
  derive_componentName n
  = camel_case (Regex.replace_anchored [Regex.Lower] (upper_at 0) n).
Proof.
  unfold derive_componentName, Regex.replace_all. apply replace_all_camel_case. lia.
Qed.

Lemma replace_anchored_not_lower (n : string) :
  starts_lower (Regex.replace_anchored [Regex.Lower] (upper_at 0) n) = false.
Proof.
  destruct n as [|c rest]; [reflexivity|].
  unfold Regex.replace_anchored. cbn [Regex.match_here Regex.atom_matches].
  destruct (Js.is_lower c) eqn:Hc; cbn; [|exact Hc].
  now destruct (is_lower_to_upper c Hc) as [-> _].
Qed.

Lemma replace_anchored_fixed (s : string) :
  starts_lower s = false -> Regex.replace_anchored [Regex.Lower] (upper_at 0) s = s.
Proof.
  destruct s as [|c rest]; [reflexivity|].
  unfold Regex.replace_anchored. cbn [Regex.match_here Regex.atom_matches starts_lower].
  now intros ->.
Qed.

(** The derived component name never starts with a lower-case letter, has
    no underscore left that is followed by a lower-case letter, and deriving
    a name from it again changes nothing. *)
Theorem derive_componentName_shape :
  forall n : string,
    starts_lower (derive_componentName n) = false /\
    has_snake_boundary (derive_componentName n) = false /\
    derive_componentName (derive_componentName n) = derive_componentName n.
Proof.
  intros n.
  assert (H1 : starts_lower (derive_componentName n) = false).
  { rewrite derive_componentName_camel.
    destruct (starts_lower (camel_case _)) eqn:E; [|reflexivity].
    apply camel_case_starts_lower in E. now rewrite replace_anchored_not_lower in E. }
  assert (H2 : has_snake_boundary (derive_componentName n) = false).
  { rewrite derive_componentName_camel. now apply (camel_case_no_boundary _ _ (le_n _)). }
  split; [exact H1|]. split; [exact H2|].
  rewrite (derive_componentName_camel (derive_componentName n)).
  rewrite (replace_anchored_fixed _ H1).
  now apply (camel_case_fixed _ _ (le_n _)).
Qed.

(** ** The safe-spy prefix is a relative path *)

(** The prefix always starts with a dot, so the helper is imported through a
    relative path, and it has as many slashes as the test directory. *)
Theorem safeSpyPrefix_relative :
  forall dir : string,
    starts_with "." (safeSpyPrefix dir) = true /\
    length (split_slash (safeSpyPrefix dir)) = length (split_slash dir).
Proof.
  intros dir. rewrite safeSpyPrefix_closed_form. unfold prefix_of_segments. split.
  - pose proof (split_slash_nonempty dir) as Hne.
    destruct (split_slash dir) as [|seg [|seg' segs]]; [congruence| |].
    + cbn. unfold segment_image. destruct (Js.is_empty seg); reflexivity.
    + cbn [map]. rewrite join_cons by discriminate.
      unfold segment_image at 1. destruct (Js.is_empty seg); reflexivity.
  - rewrite split_slash_join.
    + apply length_map.
    + intros Hnil. apply map_eq_nil in Hnil. now apply split_slash_nonempty in Hnil.
    + apply Forall_forall. intros seg Hseg.
      apply list_elem_of_In, in_map_iff in Hseg as (s & <- & _).
      apply segment_image_slash_free.
Qed.

(** ** The coverage launcher *)

Lemma split_on_nonempty (sep : ascii) (s : string) : split_on sep s <> [].
Proof.
  induction s as [|c s IH]; cbn [split_on]; [discriminate|].
  destruct (decide (c = sep)); [discriminate|].
  destruct (split_on sep s); discriminate.
Qed.

Lemma split_on_free (sep : ascii) (m : string) :
  has_char sep m = false -> split_on sep m = [m].
Proof.
  induction m as [|c m IH]; cbn [split_on has_char]; [reflexivity|].
  destruct (decide (c = sep)); [discriminate|].
  cbn [orb]. intros Hm. now rewrite (IH Hm).
Qed.

Lemma split_on_cut (sep : ascii) (m r : string) :
  has_char sep m = false ->
  split_on sep (m +:+ String sep r) = m :: split_on sep r.
Proof.
  induction m as [|c m IH]; cbn [has_char]; intros H.
  - cbn. destruct (decide (sep = sep)); [reflexivity | congruence].
  - change (String c m +:+ String sep r) with (String c (m +:+ String sep r)).
    cbn [split_on]. destruct (decide (c = sep)); [discriminate|].
    cbn [orb] in H. now rewrite (IH H).
Qed.

Lemma split_on_join (sep : ascii) (l : list string) :
  l <> [] -> Forall (fun piece => has_char sep piece = false) l ->
  split_on sep (Js.join (String sep "") l) = l.
Proof.
  induction l as [|x l IH]; intros Hne Hall; [congruence|].
  apply Forall_cons in Hall as [Hx Hl].
  destruct l as [|y l].
  - cbn [Js.join]. now apply split_on_free.
  - rewrite join_cons by discriminate.
    change (x +:+ String sep "" +:+ Js.join (String sep "") (y :: l))
      with (x +:+ String sep (Js.join (String sep "") (y :: l))).
    rewrite (split_on_cut _ _ _ Hx), IH; [reflexivity | discriminate | exact Hl].
Qed.

Lemma split_on_pieces_free (sep : ascii) (s : string) :
  Forall (fun piece => has_char sep piece = false) (split_on sep s).
Proof.
  induction s as [|c s IH]; cbn [split_on]; [repeat constructor|].
  destruct (decide (c = sep)) as [|Hne]; [constructor; [reflexivity | exact IH]|].
  destruct (split_on sep s) as [|piece pieces]; [repeat constructor|].
  - cbn. destruct (decide (c = sep)); [contradiction | reflexivity].
  - apply Forall_cons in IH as [Hpiece Hpieces]. constructor; [|exact Hpieces].
    cbn. destruct (decide (c = sep)); [contradiction | exact Hpiece].
Qed.

Lemma changed_files_shape (stdout : string) :
  Forall (fun file => Js.is_empty file = false /\ has_char (ascii_of_nat 10) file = false)
    (changed_files stdout).
Proof.
  unfold changed_files. apply Forall_forall. intros file Hfile.
  apply list_elem_of_In, filter_In in Hfile as [Hin Hlen].
  split.
  - destruct file; [discriminate Hlen | reflexivity].
  - pose proof (split_on_pieces_free (ascii_of_nat 10) stdout) as Hall.
    rewrite Forall_forall in Hall. apply Hall. now apply list_elem_of_In.
Qed.

(** Jest is started only when both arguments are given, [git] reported no
    error and wrote nothing to stderr; the list it collects coverage from is
    then not empty, and each entry is a non-empty line of the diff. *)
Theorem launch_coverage_runs_jest :
  forall (base branch : option string) (exec : string -> exec_result)
         (files : list string),
    launch_coverage base branch exec = RanJest files ->
    exists b br,
      base = Some b /\ branch = Some br /\
      Js.is_empty b = false /\ Js.is_empty br = false /\
      let result := exec ("git diff --name-only " +:+ b +:+ ".." +:+ br) in
      exec_error result = None /\ exec_stderr result = "" /\
      files = changed_files (exec_stdout result) /\
      files <> [] /\
      Forall (fun file => Js.is_empty file = false /\
                          has_char (ascii_of_nat 10) file = false) files.
Proof.
  intros base branch exec files. unfold launch_coverage.
  destruct base as [b|]; [|discriminate]. destruct branch as [br|]; [|discriminate].
  set (result := exec _).
  destruct (Js.is_empty b) eqn:Hb; [discriminate|].
  destruct (Js.is_empty br) eqn:Hbr; [discriminate|]. cbn [orb].
  destruct (exec_error result) as [error|] eqn:Herr; [discriminate|].
  destruct (exec_stderr result) as [|c t] eqn:Hstderr; [|discriminate].
  cbn [Js.is_empty negb].
  destruct (changed_files (exec_stdout result)) as [|file rest] eqn:Hfiles; [discriminate|].
  cbn [length Nat.eqb]. intros [= <-]. exists b, br.
  fold result. rewrite Herr, Hstderr, Hfiles.
  repeat split; try assumption; try discriminate.
  rewrite <- Hfiles. apply changed_files_shape.
Qed.

(** When [git] prints one line per changed file, coverage is collected from
    exactly these files, in the order of the diff. *)
Theorem launch_coverage_collects_diff :
  forall (b br : string) (exec : string -> exec_result) (names : list string),
    Js.is_empty b = false -> Js.is_empty br = false ->
    names <> [] ->
    Forall (fun file => Js.is_empty file = false /\
                        has_char (ascii_of_nat 10) file = false) names ->
    exec ("git diff --name-only " +:+ b +:+ ".." +:+ br)
    = {| exec_error := None; exec_stdout := Js.join nl names +:+ nl; exec_stderr := "" |} ->
    launch_coverage (Some b) (Some br) exec = RanJest names.
Proof.
  intros b br exec names Hb Hbr Hne Hall Hexec.
  assert (Hfiles : changed_files (Js.join nl names +:+ nl) = names).
  { unfold changed_files.
    replace (Js.join nl names +:+ nl) with (Js.join nl (names ++ [""]))
      by (rewrite join_snoc by exact Hne; now rewrite (append_nil_r nl)).
    unfold nl. rewrite split_on_join.
    - rewrite List.filter_app. cbn [List.filter String.length Nat.eqb negb].
      rewrite app_nil_r. apply forallb_filter_id, forallb_forall.
      intros file Hfile. rewrite Forall_forall in Hall.
      destruct (Hall file) as [Hfile' _]; [now apply list_elem_of_In|].
      destruct file; [discriminate Hfile' | reflexivity].
    - intros Hnil. now apply app_eq_nil in Hnil as [_ Hnil].
    - apply Forall_app. split; [|repeat constructor].
      eapply Forall_impl; [exact Hall|]. now intros file [_ Hfile]. }
  unfold launch_coverage. rewrite Hb, Hbr, Hexec. cbn [orb exec_error exec_stderr
    exec_stdout Js.is_empty negb]. rewrite Hfiles.
  destruct names; [congruence | reflexivity].
Qed.


Lemma launch_coverage_runs_jest_witness :
  launch_coverage (Some "master") (Some "feature") sample_exec
  = RanJest ["src/a.js"; "src/b.js"] /\
  ["src/a.js"; "src/b.js"] <> ([] : list string).
Proof.
  split; [vm_compute; reflexivity|].
  destruct (launch_coverage_runs_jest (Some "master") (Some "feature") sample_exec
              ["src/a.js"; "src/b.js"])
    as (b & br & _ & _ & _ & _ & _ & _ & _ & Hne & _); [vm_compute; reflexivity|].
  exact Hne.
Defined.

Lemma launch_coverage_collects_witness :
  launch_coverage (Some "master") (Some "feature") sample_exec
  = RanJest ["src/a.js"; "src/b.js"].
Proof.
  apply (launch_coverage_collects_diff "master" "feature" sample_exec
           ["src/a.js"; "src/b.js"]);
    first [reflexivity | discriminate | repeat constructor].
Defined.


(** ** When a run succeeds *)

Section SuccessCriterion.

Variable path_parse : string -> string * string.
Variable reactDocs_parse : string -> option componentDoc.
Variable reactDocs_parse_all : string -> option (list componentDoc).

#[local] Abbreviation getInfo := (getComponentInfo reactDocs_parse reactDocs_parse_all).
#[local] Abbreviation run := (scaffold path_parse reactDocs_parse reactDocs_parse_all).

Lemma getComponentInfo_fulfilled_iff (d0 d1 : data) (w : world) :
  getInfo d0 w = (w, Fulfilled d1) <->
  exists content,
    files w !! componentFilePath d0 = Some content /\
    ((exists doc, reactDocs_parse content = Some doc /\ d1 = set_component (Some doc) d0) \/
     (reactDocs_parse content = None /\
      exists res, reactDocs_parse_all content = Some res /\ (length res <= 1)%nat /\
                  d1 = set_wrapped true (set_component (head res) d0))).
Proof.
  unfold getComponentInfo. split.
  - destruct (files w !! componentFilePath d0) as [content|]; [|discriminate].
    intros H. exists content. split; [reflexivity|].
    destruct (reactDocs_parse content) as [doc|].
    + left. exists doc. cbn in H. injection H as <-. auto.
    + right. split; [reflexivity|].
      destruct (reactDocs_parse_all content) as [res|]; [|discriminate].
      exists res. split; [reflexivity|]. unfold on_all_definitions in H.
      destruct (1 <? length res)%nat eqn:Hlen; [discriminate|].
      apply Nat.ltb_ge in Hlen. cbn in H. injection H as <-. auto.
  - intros (content & -> & [(doc & -> & ->) | (-> & res & -> & Hlen & ->)]).
    + reflexivity.
    + unfold on_all_definitions.
      destruct (1 <? length res)%nat eqn:E; [apply Nat.ltb_lt in E; lia | reflexivity].
Qed.

(** A run is fulfilled exactly when the source file can be read, the
    component is found directly or as the only definition of the search,
    every prop descriptor is readable, and the test directory exists or can
    be created. *)
Theorem scaffold_fulfilled_iff :
  forall (filepath : string) (w : world),
    (exists w' d, run (Some filepath) w = (w', Fulfilled d))
    <->
    Js.is_empty filepath = false /\
    exists content doc,
      files w !! filepath = Some content /\
      (reactDocs_parse content = Some doc \/
       (reactDocs_parse content = None /\ reactDocs_parse_all content = Some [doc])) /\
      forallb (fun entry => readable (snd entry)) (default [] (props doc)) = true /\
      let testDirectory := fst (path_parse filepath) +:+ "/__tests__" in
      (testDirectory ∈ dirs w \/ testDirectory ∉ mkdir_denied w).
Proof.
  intros filepath w. split.
  - intros (w' & d & Hrun).
    destruct (scaffold_fulfilled_inv _ _ _ _ _ _ _ Hrun)
      as (f & d0 & d1 & d2 & d3 & w2 & [= <-] & H0 & H1 & H2 & H3 & Hd & H4 & _).
    unfold getFileAndComponentName in H0.
    destruct (Js.is_empty filepath) eqn:Hpath; [discriminate|].
    split; [reflexivity|].
    destruct (path_parse filepath) as [dir name0] eqn:Hparse.
    injection H0 as <-.
    apply getComponentInfo_fulfilled_iff in H1 as (content & Hfile & Hfound).
    cbn [componentFilePath] in Hfile.
    destruct (getPropDefaults_inv _ _ H2) as (doc & cs & Hdoc & Hcs & Hd2).
    exists content, doc. split; [exact Hfile|].
    assert (Hdir : testDirectory d = dir +:+ "/__tests__").
    { destruct (generateTestCasesContent_inv _ _ H3) as (doc' & _ & ->).
      rewrite Hd.
      match goal with
      | |- testDirectory (generateTestContent ?x) = _ =>
          destruct (generateTestContent_paths x) as (-> & _)
      end.
      rewrite Hd2.
      destruct Hfound as [(doc0 & _ & ->) | (_ & res & _ & _ & ->)]; reflexivity. }
    split; [|split].
    + destruct Hfound as [(doc0 & Hdirect & ->) | (Hdirect & res & Hall & Hlen & ->)].
      * left. cbn in Hdoc. congruence.
      * right. split; [exact Hdirect|]. cbn in Hdoc.
        destruct res as [|doc0 [|doc1 res]]; cbn in Hdoc, Hlen; [discriminate| |lia].
        congruence.
    + apply classify_all_readable. eauto.
    + cbn [fst]. rewrite <- Hdir.
      apply createTestsDir_fulfilled_cases. eauto.
  - intros (Hpath & content & doc & Hfile & Hfound & Hreadable & Hdir).
    apply classify_all_readable in Hreadable as [cs Hcs].
    destruct (path_parse filepath) as [dir name0] eqn:Hparse. cbn [fst] in Hdir.
    set (d0 := {| componentName := derive_componentName name0;
                  componentFilePath := filepath;
                  componentFilePathName := name0;
                  testDirectory := dir +:+ "/__tests__";
                  testCasesFile := (dir +:+ "/__tests__") +:+ "/" +:+ name0 +:+ ".test_cases.js";
                  testFile := (dir +:+ "/__tests__") +:+ "/" +:+ name0 +:+ ".test.js";
                  component := None; wrapped := false; classifiedProps := [];
                  requiredProps := []; optionalProps := [];
                  testCasesContent := []; testContent := [] |}).
    assert (H0 : getFileAndComponentName path_parse (Some filepath) = Fulfilled d0).
    { unfold getFileAndComponentName. now rewrite Hpath, Hparse. }
    assert (exists d1, getInfo d0 w = (w, Fulfilled d1) /\ component d1 = Some doc /\
                       testDirectory d1 = dir +:+ "/__tests__") as (d1 & H1 & Hdoc & Htd).
    { destruct Hfound as [Hdirect | [Hdirect Hall]].
      - exists (set_component (Some doc) d0). split; [|split; reflexivity].
        apply getComponentInfo_fulfilled_iff. exists content. split; [exact Hfile|].
        left. eauto.
      - exists (set_wrapped true (set_component (head [doc]) d0)).
        split; [|split; reflexivity].
        apply getComponentInfo_fulfilled_iff. exists content. split; [exact Hfile|].
        right. split; [exact Hdirect|]. exists [doc]. auto. }
    assert (H2 : getPropDefaults d1 = inr (set_classifiedProps cs d1)).
    { unfold getPropDefaults. now rewrite Hdoc, Hcs. }
    pose proof (generateTestCasesContent_closed_form (set_classifiedProps cs d1) doc) as H3.
    specialize (H3 ltac:(destruct d1; exact Hdoc)).
    match type of H3 with
    | _ = inr ?x => set (d3 := x) in *
    end.
    assert (Htd3 : testDirectory (generateTestContent d3) = dir +:+ "/__tests__").
    { destruct (generateTestContent_paths d3) as (-> & _). subst d3.
      destruct d1; exact Htd. }
    destruct (proj2 (createTestsDir_fulfilled_cases (generateTestContent d3) w))
      as [w2 H4]; [now rewrite Htd3|].
    eexists _, (generateTestContent d3).
    rewrite scaffold_stages, H0, H1, H2, H3, H4. reflexivity.
Qed.

End SuccessCriterion.

Lemma classify_all_names_witness :
  classify_all (default [] (props sample_doc)) = inr (classifiedProps sample_classified) /\
  map name (classifiedProps sample_classified) = ["name"; "active"].
Proof.
  split; [vm_compute; reflexivity|].
  apply (classify_all_names (default [] (props sample_doc))
           (classifiedProps sample_classified)).
  vm_compute; reflexivity.
Defined.


Lemma classify_all_diagnostics_witness :
  classify_all (default [] (props sample_doc)) = inr (classifiedProps sample_classified) /\
  Forall (fun c =>
            (message c = "" /\ exists b, required c = Js.JBool b) \/
            (message c = "Could not deduce prop type" /\
             required c = Js.JUndefined /\ defaultValue c = Js.JStr "''"))
    (classifiedProps sample_classified).
Proof.
  split; [vm_compute; reflexivity|].
  apply (classify_all_diagnostics (default [] (props sample_doc))).
  vm_compute; reflexivity.
Defined.

Lemma deduce_PropTypes_text_witness :
  has_char "R" "func" = false /\
  deduce {| prop_flowType := None;
            prop_type := Some {| raw := Some "PropTypes.func.isRequired" |};
            prop_required := false |}
  = inr ("func", Js.JBool true, "").
Proof.
  split; [reflexivity|].
  apply (deduce_PropTypes_text "func" false). reflexivity.
Defined.
